(** * TFN_Layers: layers, callbacks and experiment scripts

    A shallow embedding of [tfn/layers/utility_layers.py],
    [tfn/tools/callbacks.py] and the experiment scripts under [runs/],
    with the properties the specification states about them.

    Conventions.
    - Python exceptions are values of [Py.exn]; a computation that may raise
      returns a [Py.result].
    - numpy arrays of the metric functions are one-dimensional arrays of
      rationals ([Numpy.ndarray]); floating point numbers are idealised as
      exact rationals, so [1e-7] is the rational 1/10^7.
    - TensorFlow tensors are a shape together with an element function over
      the reals ([Tensor.tensor]); floats are idealised as real numbers. *)

From Stdlib Require Import List ZArith QArith Qround Qminmax Lia Lqa.
From Stdlib Require Import String Ascii Bool DecimalString.
From Stdlib Require Import Reals Lra.
From Stdlib Require DecimalZ DecimalPos.
Import ListNotations.

Set Warnings "-register-all".

(* ===================================================================== *)
(** * Python results and exceptions *)
(* ===================================================================== *)

Module Py.

Inductive exn : Type :=
| ValueError
| TypeError
| ZeroDivisionError.

Inductive result (A : Type) : Type :=
| Ok (a : A)
| Raise (e : exn).

Arguments Ok {A} a.
Arguments Raise {A} e.

Definition bind {A B : Type} (c : result A) (k : A -> result B) : result B :=
  match c with
  | Ok a => k a
  | Raise e => Raise e
  end.

Definition is_ok {A : Type} (c : result A) : bool :=
  match c with
  | Ok _ => true
  | Raise _ => false
  end.

(** Python values as they occur in keyword arguments and configuration
    dictionaries.  Float literals are exact rationals; dictionaries have
    string keys and keep the order of their entries. *)
Inductive value : Type :=
| VNone
| VBool (b : bool)
| VInt (z : Z)
| VFloat (q : Q)
| VStr (s : string)
| VList (l : list value)
| VTuple (l : list value)
| VDict (d : list (string * value)).

Definition dict : Type := list (string * value).

(** Truth value of an object in a condition. *)
Definition truthy (v : value) : bool :=
  match v with
  | VNone => false
  | VBool b => b
  | VInt z => negb (Z.eqb z 0)
  | VFloat q => negb (Qeq_bool q 0)
  | VStr s => negb (String.eqb s EmptyString)
  | VList l | VTuple l => match l with [] => false | _ => true end
  | VDict d => match d with [] => false | _ => true end
  end.

(** [d.get(key)] *)
Fixpoint dict_get (key : string) (d : dict) : option value :=
  match d with
  | [] => None
  | (k, v) :: d' => if String.eqb k key then Some v else dict_get key d'
  end.

Definition dict_remove (key : string) (d : dict) : dict :=
  filter (fun kv => negb (String.eqb (fst kv) key)) d.

(** [d.pop(key, default)]: the value and the dictionary left behind. *)
Definition dict_pop (key : string) (default : value) (d : dict) : value * dict :=
  match dict_get key d with
  | Some v => (v, dict_remove key d)
  | None => (default, d)
  end.

End Py.

Import Py.

Declare Scope py_scope.
Delimit Scope py_scope with py.
Notation "x <- c ;; k" := (Py.bind c (fun x => k))
  (at level 61, c at next level, right associativity) : py_scope.

(* ===================================================================== *)
(** * numpy on one-dimensional arrays of rationals *)
(* ===================================================================== *)

Module Numpy.

Local Open Scope Q_scope.
Local Open Scope py_scope.

(** A one-dimensional array.  Arrays of a common shape with more axes are
    represented by their elements in row-major order: the metric functions
    only use elementwise operations and the sum over all elements. *)
Definition ndarray : Type := list Q.

Fixpoint zip_with (f : Q -> Q -> Q) (a b : ndarray) : ndarray :=
  match a, b with
  | x :: a', y :: b' => f x y :: zip_with f a' b'
  | _, _ => []
  end.

(** Elementwise binary operation with numpy's broadcasting rule for one
    axis: equal lengths pair up, a length-one operand is repeated, any other
    combination raises [ValueError]. *)
Definition broadcast (f : Q -> Q -> Q) (a b : ndarray) : result ndarray :=
  if Nat.eqb (List.length a) (List.length b) then Ok (zip_with f a b)
  else match a, b with
       | [x], _ => Ok (map (f x) b)
       | _, [y] => Ok (map (fun x => f x y) a)
       | _, _ => Raise ValueError
       end.

(** [a * b] *)
Definition multiply (a b : ndarray) : result ndarray := broadcast Qmult a b.

(** [np.clip(a, a_min, a_max)] is [minimum(a_max, maximum(a, a_min))]. *)
Definition clip (a : ndarray) (a_min a_max : Q) : ndarray :=
  map (fun x => Qmin a_max (Qmax x a_min)) a.

(** Rounding of one number to the nearest integer, halves to the even
    neighbour, as [np.round] does. *)
Definition round_half_even (x : Q) : Q :=
  let f := Qfloor x in
  match (x - inject_Z f) ?= (1 # 2) with
  | Lt => inject_Z f
  | Gt => inject_Z (f + 1)
  | Eq => if Z.even f then inject_Z f else inject_Z (f + 1)
  end.

(** [np.round(a)] *)
Definition round (a : ndarray) : ndarray := map round_half_even a.

(** [np.sum(a)] *)
Definition sum (a : ndarray) : Q := fold_right Qplus 0 a.

(** [x / y] on numpy floats.  numpy does not raise on a zero divisor: it
    yields [inf] or [nan] and emits a RuntimeWarning.  The rationals have
    neither, so the model flags that outcome as [ZeroDivisionError]; a
    result [Ok q] means that the divisor was not zero. *)
Definition divide (x y : Q) : result Q :=
  if Qeq_bool y 0 then Raise ZeroDivisionError else Ok (x / y).

End Numpy.

(* ===================================================================== *)
(** * TensorFlow tensors *)
(* ===================================================================== *)

Module Tensor.

Local Open Scope R_scope.
Local Open Scope py_scope.

(** A tensor is its shape and its elements, addressed by a multi-index with
    one entry per axis.  Only the elements at indices within the shape
    matter. *)
Record tensor : Type := mk { shape : list nat; val : list nat -> R }.

Definition rank (t : tensor) : nat := List.length (shape t).

(** [idx] addresses an element of a tensor of shape [s]. *)
Definition in_range (s idx : list nat) : Prop := Forall2 lt idx s.

(** Position of a possibly negative [axis] among [n] axes. *)
Definition axis_pos (n : nat) (axis : Z) : option nat :=
  if (0 <=? axis)%Z && (axis <? Z.of_nat n)%Z then Some (Z.to_nat axis)
  else if (- Z.of_nat n <=? axis)%Z && (axis <? 0)%Z
       then Some (Z.to_nat (Z.of_nat n + axis))
       else None.

(** [tf.expand_dims(t, axis)]: a new axis of length one at [axis]. *)
Definition expand_dims (t : tensor) (axis : Z) : result tensor :=
  match axis_pos (S (rank t)) axis with
  | Some p =>
      Ok (mk (firstn p (shape t) ++ 1%nat :: skipn p (shape t))
             (fun idx => val t (firstn p idx ++ skipn (S p) idx)))
  | None => Raise ValueError
  end.

(** Broadcasting of two axis lengths. *)
Definition broadcast_dim (d1 d2 : nat) : option nat :=
  if Nat.eqb d1 d2 then Some d1
  else if Nat.eqb d1 1 then Some d2
  else if Nat.eqb d2 1 then Some d1
  else None.

(** Broadcasting of two shapes given last axis first; the shorter shape is
    extended with axes of length one. *)
Fixpoint broadcast_rev (s1 s2 : list nat) : option (list nat) :=
  match s1, s2 with
  | [], _ => Some s2
  | _, [] => Some s1
  | d1 :: s1', d2 :: s2' =>
      match broadcast_dim d1 d2, broadcast_rev s1' s2' with
      | Some d, Some s => Some (d :: s)
      | _, _ => None
      end
  end.

Definition broadcast_shape (s1 s2 : list nat) : option (list nat) :=
  option_map (@rev nat) (broadcast_rev (rev s1) (rev s2)).

Fixpoint zip_index (s idx : list nat) : list nat :=
  match s, idx with
  | d :: s', i :: idx' => (if Nat.eqb d 1 then 0%nat else i) :: zip_index s' idx'
  | _, _ => []
  end.

(** The index into an operand of shape [s] for the index [idx] into the
    broadcast result: leading axes the operand lacks are dropped and an axis
    of length one is read at 0. *)
Definition project (s idx : list nat) : list nat :=
  zip_index s (skipn (List.length idx - List.length s) idx).

(** Elementwise binary operation with broadcasting. *)
Definition elementwise (f : R -> R -> R) (a b : tensor) : result tensor :=
  match broadcast_shape (shape a) (shape b) with
  | Some s =>
      Ok (mk s (fun idx => f (val a (project (shape a) idx))
                             (val b (project (shape b) idx))))
  | None => Raise ValueError
  end.

(** [a - b] *)
Definition subtract : tensor -> tensor -> result tensor := elementwise Rminus.

(** [a / b].  TensorFlow does not raise on a zero divisor (the element is
    [inf] or [nan]); that the divisors are not zero is stated about the
    divisor tensor. *)
Definition divide : tensor -> tensor -> result tensor := elementwise Rdiv.

Definition map_elements (f : R -> R) (t : tensor) : tensor :=
  mk (shape t) (fun idx => f (val t idx)).

(** [tf.square], [tf.sqrt], [tf.maximum(t, c)] *)
Definition square : tensor -> tensor := map_elements (fun x => x * x).
Definition sqrt : tensor -> tensor := map_elements R_sqrt.sqrt.
Definition maximum (t : tensor) (c : R) : tensor :=
  map_elements (fun x => Rmax x c) t.

(** f 0 + ... + f (n - 1) *)
Fixpoint sum_n (n : nat) (f : nat -> R) : R :=
  match n with
  | O => 0
  | S k => sum_n k f + f k
  end.

Definition reduce_shape (keepdims : bool) (p : nat) (s : list nat) : list nat :=
  if keepdims then firstn p s ++ 1%nat :: skipn (S p) s
  else firstn p s ++ skipn (S p) s.

(** The index into the argument of a reduction over axis [p], for the
    result index [idx] and the position [k] along the reduced axis. *)
Definition reduce_index (keepdims : bool) (p : nat) (idx : list nat) (k : nat)
  : list nat :=
  if keepdims then firstn p idx ++ k :: skipn (S p) idx
  else firstn p idx ++ k :: skipn p idx.

(** [tf.reduce_sum(t, axis=axis, keepdims=keepdims)] for one axis. *)
Definition reduce_sum (t : tensor) (axis : Z) (keepdims : bool) : result tensor :=
  match axis_pos (rank t) axis with
  | Some p =>
      Ok (mk (reduce_shape keepdims p (shape t))
             (fun idx => sum_n (nth p (shape t) 0%nat)
                           (fun k => val t (reduce_index keepdims p idx k))))
  | None => Raise ValueError
  end.

(** ** Axes, shapes and indices *)

Lemma axis_pos_from_end (n k : nat) :
  (0 < k <= n)%nat -> axis_pos n (- Z.of_nat k) = Some (n - k)%nat.
Proof.
  intros Hk. unfold axis_pos.
  replace ((0 <=? - Z.of_nat k)%Z) with false by (symmetry; apply Z.leb_gt; lia).
  replace ((- Z.of_nat n <=? - Z.of_nat k)%Z) with true
    by (symmetry; apply Z.leb_le; lia).
  replace ((- Z.of_nat k <? 0)%Z) with true by (symmetry; apply Z.ltb_lt; lia).
  simpl. f_equal. lia.
Qed.

Lemma in_range_length (s idx : list nat) :
  in_range s idx -> List.length idx = List.length s.
Proof. apply Forall2_length. Qed.

Lemma in_range_app (s1 s2 i1 i2 : list nat) :
  in_range s1 i1 -> in_range s2 i2 -> in_range (s1 ++ s2) (i1 ++ i2).
Proof. apply Forall2_app. Qed.

Lemma broadcast_dim_same (d : nat) : broadcast_dim d d = Some d.
Proof. unfold broadcast_dim. now rewrite Nat.eqb_refl. Qed.

Lemma broadcast_dim_one_r (d : nat) : broadcast_dim d 1 = Some d.
Proof.
  unfold broadcast_dim. destruct (Nat.eqb d 1) eqn:E; [|reflexivity].
  apply Nat.eqb_eq in E. now subst.
Qed.

Lemma broadcast_dim_one_l (d : nat) : broadcast_dim 1 d = Some d.
Proof.
  unfold broadcast_dim. destruct (Nat.eqb 1 d) eqn:E; [|reflexivity].
  apply Nat.eqb_eq in E. now subst.
Qed.

Lemma broadcast_rev_same (s : list nat) : broadcast_rev s s = Some s.
Proof.
  induction s as [|d s IH]; simpl; [reflexivity|].
  now rewrite broadcast_dim_same, IH.
Qed.

Lemma broadcast_rev_app (a b c p : list nat) :
  List.length a = List.length b ->
  broadcast_rev a b = Some c ->
  broadcast_rev (a ++ p) (b ++ p) = Some (c ++ p).
Proof.
  revert b c. induction a as [|x a IH]; intros [|y b] c Hlen Hb;
    simpl in *; try discriminate.
  - inversion Hb; subst. apply broadcast_rev_same.
  - destruct (broadcast_dim x y) as [d|]; [|discriminate].
    destruct (broadcast_rev a b) as [s|] eqn:E; [|discriminate].
    inversion Hb; subst. rewrite (IH b s); [reflexivity | lia | exact E].
Qed.

(** Shapes with a common prefix broadcast on their suffixes. *)
Lemma broadcast_shape_prefix (pre a b c : list nat) :
  List.length a = List.length b ->
  broadcast_shape a b = Some c ->
  broadcast_shape (pre ++ a) (pre ++ b) = Some (pre ++ c).
Proof.
  unfold broadcast_shape. intros Hlen Hb.
  destruct (broadcast_rev (rev a) (rev b)) as [c'|] eqn:E; [|discriminate].
  simpl in Hb. inversion Hb; subst.
  rewrite !rev_app_distr.
  rewrite (broadcast_rev_app _ _ c'); [|now rewrite !length_rev | exact E].
  simpl. now rewrite rev_app_distr, rev_involutive.
Qed.

Lemma project_same_length (s idx : list nat) :
  List.length idx = List.length s -> project s idx = zip_index s idx.
Proof.
  intros H. unfold project. rewrite H, Nat.sub_diag. reflexivity.
Qed.

Lemma zip_index_app (s1 s2 i1 i2 : list nat) :
  List.length i1 = List.length s1 ->
  zip_index (s1 ++ s2) (i1 ++ i2) = zip_index s1 i1 ++ zip_index s2 i2.
Proof.
  revert i1. induction s1 as [|d s1 IH]; intros [|i i1] H;
    simpl in *; try discriminate; [reflexivity|].
  f_equal. apply IH. lia.
Qed.

Lemma zip_index_in_range (s idx : list nat) :
  in_range s idx -> zip_index s idx = idx.
Proof.
  induction 1 as [|i d idx s Hid _ IH]; simpl; [reflexivity|].
  rewrite IH. destruct (Nat.eqb d 1) eqn:E; [|reflexivity].
  apply Nat.eqb_eq in E. f_equal. lia.
Qed.

Lemma firstn_app_exact {A : Type} (l1 l2 : list A) :
  firstn (List.length l1) (l1 ++ l2) = l1.
Proof.
  rewrite firstn_app, Nat.sub_diag, firstn_all. simpl. apply app_nil_r.
Qed.

Lemma skipn_app_exact {A : Type} (l1 l2 : list A) :
  skipn (List.length l1) (l1 ++ l2) = l2.
Proof.
  rewrite skipn_app, Nat.sub_diag, skipn_all. reflexivity.
Qed.

Lemma sum_n_ext (n : nat) (f g : nat -> R) :
  (forall k, (k < n)%nat -> f k = g k) -> sum_n n f = sum_n n g.
Proof.
  induction n as [|n IH]; intros H; simpl; [reflexivity|].
  rewrite IH, H; auto.
Qed.

Lemma guarded_sqrt_pos (x eps : R) : 0 < eps -> 0 < R_sqrt.sqrt (Rmax x eps).
Proof.
  intros He. apply sqrt_lt_R0.
  apply Rlt_le_trans with eps; [assumption | apply Rmax_r].
Qed.

End Tensor.

(* ===================================================================== *)
(** * Python dictionaries: item assignment and merging *)
(* ===================================================================== *)

Module PyDict.

(** [d[key] = v]: the value of an existing entry is replaced in place, a new
    entry goes to the end. *)
Fixpoint dict_set (key : string) (v : value) (d : dict) : dict :=
  match d with
  | [] => [(key, v)]
  | (k, x) :: d' =>
      if String.eqb k key then (k, v) :: d'
      else (k, x) :: dict_set key v d'
  end.

(** [{**d, **updates}] *)
Definition dict_merge (d updates : dict) : dict :=
  fold_left (fun acc kv => dict_set (fst kv) (snd kv) acc) updates d.

Lemma dict_get_set_same (key : string) (v : value) (d : dict) :
  dict_get key (dict_set key v d) = Some v.
Proof.
  induction d as [|[k x] d IH]; simpl.
  - now rewrite String.eqb_refl.
  - destruct (String.eqb k key) eqn:E; simpl; rewrite E; [reflexivity | exact IH].
Qed.

Lemma dict_get_set_other (key key' : string) (v : value) (d : dict) :
  key' <> key -> dict_get key' (dict_set key v d) = dict_get key' d.
Proof.
  intros Hne. induction d as [|[k x] d IH]; simpl.
  - destruct (String.eqb key key') eqn:E; [|reflexivity].
    apply String.eqb_eq in E. congruence.
  - destruct (String.eqb k key) eqn:E; simpl.
    + apply String.eqb_eq in E. subst k.
      destruct (String.eqb key key') eqn:E'; [|reflexivity].
      apply String.eqb_eq in E'. congruence.
    + now rewrite IH.
Qed.

Lemma dict_get_remove_other (key key' : string) (d : dict) :
  key' <> key -> dict_get key' (dict_remove key d) = dict_get key' d.
Proof.
  intros Hne. unfold dict_remove.
  induction d as [|[k x] d IH]; simpl; [reflexivity|].
  destruct (String.eqb k key) eqn:E; simpl.
  - apply String.eqb_eq in E. subst k.
    destruct (String.eqb key key') eqn:E'; [|exact IH].
    apply String.eqb_eq in E'. congruence.
  - now rewrite IH.
Qed.

Lemma dict_get_pop_other (key key' : string) (default : value) (d : dict) :
  key' <> key -> dict_get key' (snd (dict_pop key default d)) = dict_get key' d.
Proof.
  intros Hne. unfold dict_pop.
  destruct (dict_get key d); simpl; [now apply dict_get_remove_other | reflexivity].
Qed.

End PyDict.

(* ===================================================================== *)
(** * [tfn/layers/utility_layers.py] *)
(* ===================================================================== *)

Module UtilityLayers.

Import Tensor.
Local Open Scope py_scope.

(** The layers imported from the package [atomic_images], as the objects
    their constructors build: the class and the constructor's arguments. *)
Inductive atomic_images_layer : Type :=
| OneHot (depth : nat)
| CosineBasis (kwargs : dict)
| ShiftedCosineBasis (kwargs : dict)
| GaussianBasis (kwargs : dict)
| CosineCutoff (cutoff : value)
| DistanceMatrix.

(** The attribute [sum_points] of a UnitVectors layer. *)
Record UnitVectors : Type := mkUnitVectors { uv_sum_points : value }.

Record Preprocessing : Type := mkPreprocessing {
  sum_points : value;
  max_z : nat;
  basis_config : dict;
  basis_type : string;
  one_hot : atomic_images_layer;
  basis_function : atomic_images_layer;
  cutoff : atomic_images_layer;
  distance_matrix : atomic_images_layer;
  unit_vectors : UnitVectors
}.

(** The dictionary [__init__] uses when [basis_config] is [None]. *)
Definition default_basis_config : dict :=
  [ ("width", VFloat (2 # 10));
    ("spacing", VFloat (2 # 10));
    ("min_value", VFloat (- (1 # 1)));
    ("max_value", VFloat (15 # 1)) ]%string.

Section Layers.

(** What the code takes from outside this repository: the constructor of
    the Keras base class [Layer], which accepts or rejects the keyword
    arguments it is given; what calling a layer of [atomic_images] on its
    inputs returns; and the attribute [_n_centers] of a basis layer. *)
Variable keras_Layer_init : dict -> result unit.
Variable atomic_images_call : atomic_images_layer -> list tensor -> result tensor.
Variable n_centers : atomic_images_layer -> nat.

(** The constant [EPSILON] of [tfn.utils], which is not among the sources. *)
Variable EPSILON : R.

(** Modelled from the spec: [tfn.utils.norm_with_epsilon] is not among the
    sources.  The spec names its result the epsilon-guarded Euclidean norm:
    the square root of the sum of squares along [axis], the sum being kept
    from falling below the constant [EPSILON]. *)
Definition norm_with_epsilon (x : tensor) (axis : Z) (keepdims : bool)
  : result tensor :=
  s <- reduce_sum (square x) axis keepdims ;;
  Ok (Tensor.sqrt (maximum s EPSILON)).

(** ** UnitVectors *)

Definition UnitVectors_init (sum_points : value) (kwargs : dict)
  : result UnitVectors :=
  _ <- keras_Layer_init kwargs ;;
  Ok (mkUnitVectors sum_points).

Definition UnitVectors_call (self : UnitVectors) (inputs : tensor)
  : result tensor :=
  v <- (if truthy (uv_sum_points self) then Ok inputs
        else
          i <- expand_dims inputs (-2) ;;
          j <- expand_dims inputs (-3) ;;
          subtract i j) ;;
  den <- norm_with_epsilon v (-1) true ;;
  divide v den.

(** ** Preprocessing *)

Definition Preprocessing_init (max_z : nat) (basis_config : option dict)
    (basis_type : string) (kwargs : dict) : result Preprocessing :=
  let (sum_points, kwargs) := dict_pop "sum_points" (VBool false) kwargs in
  _ <- keras_Layer_init kwargs ;;
  let basis_config :=
    match basis_config with
    | None => default_basis_config
    | Some d => d
    end in
  let one_hot := OneHot max_z in
  let basis_function :=
    if String.eqb basis_type "cosine" then CosineBasis basis_config
    else if String.eqb basis_type "shifted_cosine"
         then ShiftedCosineBasis basis_config
         else GaussianBasis basis_config in
  let (cutoff, kwargs) := dict_pop "cutoff" (VFloat (15 # 1)) kwargs in
  unit_vectors <- UnitVectors_init sum_points [] ;;
  Ok {| sum_points := sum_points;
        max_z := max_z;
        basis_config := basis_config;
        basis_type := basis_type;
        one_hot := one_hot;
        basis_function := basis_function;
        cutoff := CosineCutoff cutoff;
        distance_matrix := DistanceMatrix;
        unit_vectors := unit_vectors |}.

Definition Preprocessing_call (self : Preprocessing) (inputs : list tensor)
  : result (list tensor) :=
  match inputs with
  | [r; z] =>
      dist_matrix <- atomic_images_call (distance_matrix self) [r] ;;
      basis <- atomic_images_call (basis_function self) [dist_matrix] ;;
      rbf <- atomic_images_call (cutoff self) [dist_matrix; basis] ;;
      vectors <- UnitVectors_call (unit_vectors self) r ;;
      rbf <- (if truthy (sum_points self) then reduce_sum rbf (-2) false
              else Ok rbf) ;;
      one_hot_z <- atomic_images_call (one_hot self) [z] ;;
      Ok [one_hot_z; rbf; vectors]
  | _ => Raise ValueError
  end.

(** Shapes are lists of known axis lengths. *)
Definition Preprocessing_compute_output_shape (self : Preprocessing)
    (input_shape : list (list nat)) : result (list (list nat)) :=
  match input_shape with
  | [r; _] =>
      match r with
      | [batch; points; _] =>
          Ok [ [batch; points; max_z self];
               [batch; points; points; n_centers (basis_function self)];
               [batch; points; points; 3%nat] ]
      | _ => Raise ValueError
      end
  | _ => Raise ValueError
  end.

(** ** Properties of UnitVectors *)

Local Open Scope R_scope.
Local Arguments skipn : simpl never.
Local Arguments firstn : simpl never.

Lemma skipn_app_past {A : Type} (l1 l2 : list A) (x : A) :
  skipn (S (List.length l1)) (l1 ++ x :: l2) = l2.
Proof.
  induction l1 as [|y l1 IH]; [reflexivity | exact IH].
Qed.

Lemma expand_dims_from_end (t : tensor) (pre suf : list nat) :
  shape t = pre ++ suf ->
  expand_dims t (- Z.of_nat (S (List.length suf)))%Z =
  Ok (mk (pre ++ 1%nat :: suf)
         (fun idx => val t (firstn (List.length pre) idx
                            ++ skipn (S (List.length pre)) idx))).
Proof.
  intros Hs. unfold expand_dims, rank. rewrite Hs, length_app.
  rewrite axis_pos_from_end by lia.
  replace (S (List.length pre + List.length suf) - S (List.length suf))%nat
    with (List.length pre) by lia.
  now rewrite firstn_app_exact, skipn_app_exact.
Qed.

Lemma norm_with_epsilon_last (v : tensor) (s : list nat) (c : nat) :
  shape v = s ++ [c] ->
  norm_with_epsilon v (-1) true =
  Ok (mk (s ++ [1%nat])
         (fun idx =>
            R_sqrt.sqrt
              (Rmax (sum_n c (fun k =>
                        val v (firstn (List.length s) idx
                               ++ k :: skipn (S (List.length s)) idx)
                        * val v (firstn (List.length s) idx
                                 ++ k :: skipn (S (List.length s)) idx)))
                    EPSILON))).
Proof.
  intros Hs. unfold norm_with_epsilon, reduce_sum, rank, square. simpl.
  rewrite Hs, length_app. simpl.
  change (-1)%Z with (- Z.of_nat 1)%Z. rewrite axis_pos_from_end by lia.
  replace (List.length s + 1 - 1)%nat with (List.length s) by lia.
  simpl. unfold Tensor.sqrt, maximum, map_elements, reduce_shape, reduce_index.
  simpl. rewrite firstn_app_exact, skipn_app_past, nth_middle. reflexivity.
Qed.

(** Every element of a tensor returned by [norm_with_epsilon] is positive
    when [EPSILON] is. *)
Lemma norm_with_epsilon_pos (x den : tensor) (axis : Z) (keepdims : bool) :
  0 < EPSILON ->
  norm_with_epsilon x axis keepdims = Ok den ->
  forall idx, 0 < val den idx.
Proof.
  intros He H idx. unfold norm_with_epsilon in H.
  destruct (reduce_sum (square x) axis keepdims) as [s|e]; simpl in H;
    [|discriminate].
  inversion H; subst. simpl. now apply guarded_sqrt_pos.
Qed.

(** Division of a tensor by its guarded norm along the last axis. *)
Lemma normalize_last (v : tensor) (s : list nat) (c : nat) :
  shape v = s ++ [c] ->
  exists out,
    (den <- norm_with_epsilon v (-1) true ;; divide v den)%py = Ok out /\
    shape out = s ++ [c] /\
    forall idx k, in_range s idx -> (k < c)%nat ->
      val out (idx ++ [k]) =
      val v (idx ++ [k])
      / R_sqrt.sqrt (Rmax (sum_n c (fun k' => val v (idx ++ [k'])
                                             * val v (idx ++ [k'])))
                          EPSILON).
Proof.
  intros Hs. rewrite (norm_with_epsilon_last v s c Hs). simpl.
  unfold divide, elementwise. simpl. rewrite Hs.
  rewrite (broadcast_shape_prefix s [c] [1%nat] [c]); [|reflexivity|].
  2:{ unfold broadcast_shape. simpl. now rewrite broadcast_dim_one_r. }
  eexists. split; [reflexivity|]. split; [reflexivity|].
  intros idx k Hidx Hk. simpl.
  pose proof (in_range_length _ _ Hidx) as Hlen.
  rewrite !project_same_length by (rewrite !length_app; simpl; lia).
  rewrite !zip_index_app by assumption.
  rewrite (zip_index_in_range s idx Hidx).
  replace (zip_index [c] [k]) with [k]
    by (symmetry; apply zip_index_in_range; repeat constructor; exact Hk).
  simpl. rewrite <- Hlen, firstn_app_exact, skipn_app_past. reflexivity.
Qed.

(** The differences of all pairs of points, as [call] builds them. *)
Lemma pairwise_differences (r : tensor) (pre : list nat) (n c : nat) :
  shape r = pre ++ [n; c] ->
  exists v,
    (i <- expand_dims r (-2) ;; j <- expand_dims r (-3) ;; subtract i j)%py
    = Ok v /\
    shape v = pre ++ [n; n; c] /\
    forall ipre i j k, in_range pre ipre -> (i < n)%nat -> (j < n)%nat ->
      (k < c)%nat ->
      val v (ipre ++ [i; j; k])
      = val r (ipre ++ [i; k]) - val r (ipre ++ [j; k]).
Proof.
  intros Hs.
  assert (Hs2 : shape r = (pre ++ [n]) ++ [c]) by (now rewrite <- app_assoc).
  change (-2)%Z with (- Z.of_nat (S (List.length [c])))%Z.
  rewrite (expand_dims_from_end r _ _ Hs2).
  change (-3)%Z with (- Z.of_nat (S (List.length [n; c])))%Z.
  rewrite (expand_dims_from_end r _ _ Hs). simpl.
  unfold subtract, elementwise. simpl. rewrite <- app_assoc. simpl.
  rewrite (broadcast_shape_prefix pre [n; 1%nat; c] [1%nat; n; c] [n; n; c]);
    [|reflexivity|].
  2:{ unfold broadcast_shape. simpl.
      now rewrite broadcast_dim_same, broadcast_dim_one_l, broadcast_dim_one_r. }
  eexists. split; [reflexivity|]. split; [reflexivity|].
  intros ipre i j k Hpre Hi Hj Hk. simpl.
  pose proof (in_range_length _ _ Hpre) as Hlen.
  rewrite !project_same_length by (rewrite !length_app; simpl; lia).
  rewrite !zip_index_app by assumption.
  rewrite (zip_index_in_range pre ipre Hpre).
  replace (zip_index [n; 1%nat; c] [i; j; k]) with [i; 0%nat; k].
  2:{ simpl. destruct (Nat.eqb n 1) eqn:En; destruct (Nat.eqb c 1) eqn:Ec;
      try apply Nat.eqb_eq in En; try apply Nat.eqb_eq in Ec;
      repeat f_equal; lia. }
  replace (zip_index [1%nat; n; c] [i; j; k]) with [0%nat; j; k].
  2:{ simpl. destruct (Nat.eqb n 1) eqn:En; destruct (Nat.eqb c 1) eqn:Ec;
      try apply Nat.eqb_eq in En; try apply Nat.eqb_eq in Ec;
      repeat f_equal; lia. }
  rewrite length_app. simpl. rewrite <- Hlen.
  f_equal.
  - f_equal. replace (List.length ipre + 1)%nat with (List.length (ipre ++ [i]))
      by (rewrite length_app; reflexivity).
    change (ipre ++ [i; 0%nat; k]) with (ipre ++ [i] ++ 0%nat :: [k]).
    rewrite (app_assoc ipre [i]).
    rewrite firstn_app_exact, skipn_app_past. now rewrite <- app_assoc.
  - f_equal. now rewrite firstn_app_exact, skipn_app_past.
Qed.

(** C2: for a cartesian input [r] of shape (..., n, c) and a positive
    [EPSILON], [UnitVectors.call] without [sum_points] returns the tensor of
    shape (..., n, n, c) whose entry (i, j) is r_i - r_j divided by the
    guarded norm of r_i - r_j along the last axis; with [sum_points] it
    returns the input divided by its own guarded norm along the last axis.
    Every divisor is positive, and coincident points (so the diagonal
    i = j) give the zero vector. *)
Theorem UnitVectors_call_spec (self : UnitVectors) (r : tensor)
    (pre : list nat) (n c : nat) :
  0 < EPSILON ->
  shape r = pre ++ [n; c] ->
  let guarded_norm (u : nat -> R) :=
    R_sqrt.sqrt (Rmax (sum_n c (fun k => u k * u k)) EPSILON) in
  (truthy (uv_sum_points self) = false ->
   exists out,
     UnitVectors_call self r = Ok out /\
     shape out = pre ++ [n; n; c] /\
     forall ipre i j k,
       in_range pre ipre -> (i < n)%nat -> (j < n)%nat -> (k < c)%nat ->
       let d k' := val r (ipre ++ [i; k']) - val r (ipre ++ [j; k']) in
       0 < guarded_norm d /\
       val out (ipre ++ [i; j; k]) = d k / guarded_norm d /\
       ((forall k', (k' < c)%nat ->
           val r (ipre ++ [i; k']) = val r (ipre ++ [j; k'])) ->
        val out (ipre ++ [i; j; k]) = 0) /\
       val out (ipre ++ [i; i; k]) = 0) /\
  (truthy (uv_sum_points self) = true ->
   exists out,
     UnitVectors_call self r = Ok out /\
     shape out = pre ++ [n; c] /\
     forall ipre i k,
       in_range pre ipre -> (i < n)%nat -> (k < c)%nat ->
       let d k' := val r (ipre ++ [i; k']) in
       0 < guarded_norm d /\
       val out (ipre ++ [i; k]) = d k / guarded_norm d).
Proof.
  intros He Hs guarded_norm. split; intros Hsum; unfold UnitVectors_call;
    rewrite Hsum.
  - destruct (pairwise_differences r pre n c Hs) as (v & Hv & Hsv & Hval).
    rewrite Hv. cbn [Py.bind].
    assert (Hsv' : shape v = (pre ++ [n; n]) ++ [c])
      by (now rewrite Hsv, <- app_assoc).
    destruct (normalize_last v _ c Hsv') as (out & Hout & Hso & Hq).
    exists out. split; [exact Hout|]. split; [now rewrite Hso, <- app_assoc|].
    assert (Hentry : forall ipre i j k,
               in_range pre ipre -> (i < n)%nat -> (j < n)%nat -> (k < c)%nat ->
               val out (ipre ++ [i; j; k]) =
               (val r (ipre ++ [i; k]) - val r (ipre ++ [j; k]))
               / guarded_norm (fun k' => val r (ipre ++ [i; k'])
                                         - val r (ipre ++ [j; k']))).
    { intros ipre i j k Hpre Hi Hj Hk.
      change (ipre ++ [i; j; k]) with (ipre ++ [i; j] ++ [k]).
      rewrite app_assoc, Hq; [|apply in_range_app; [assumption|]; repeat constructor; assumption | assumption].
      rewrite <- app_assoc. simpl. rewrite Hval by assumption.
      unfold guarded_norm. do 3 f_equal. apply sum_n_ext. intros k' Hk'.
      rewrite <- app_assoc. simpl. now rewrite Hval. }
    intros ipre i j k Hpre Hi Hj Hk.
    split; [apply guarded_sqrt_pos, He|].
    split; [now apply Hentry|].
    split.
    + intros Hco. rewrite Hentry by assumption. rewrite (Hco k Hk).
      unfold Rdiv, Rminus. now rewrite Rplus_opp_r, Rmult_0_l.
    + rewrite Hentry by assumption.
      unfold Rdiv, Rminus. now rewrite Rplus_opp_r, Rmult_0_l.
  - cbn [Py.bind].
    assert (Hs' : shape r = (pre ++ [n]) ++ [c]) by (now rewrite Hs, <- app_assoc).
    destruct (normalize_last r _ c Hs') as (out & Hout & Hso & Hq).
    exists out. split; [exact Hout|]. split; [now rewrite Hso, <- app_assoc|].
    intros ipre i k Hpre Hi Hk.
    split; [apply guarded_sqrt_pos, He|].
    change (ipre ++ [i; k]) with (ipre ++ [i] ++ [k]).
    rewrite app_assoc, Hq; [|apply in_range_app; [assumption|]; repeat constructor; assumption | assumption].
    unfold guarded_norm. rewrite <- app_assoc. simpl.
    do 3 f_equal. apply sum_n_ext. intros k' Hk'. now rewrite <- app_assoc.
Qed.

(** ** Properties of Preprocessing *)

Lemma reduce_sum_second_last (t : tensor) (pre : list nat) (m c : nat) :
  shape t = pre ++ [m; c] ->
  reduce_sum t (-2) false =
  Ok (mk (pre ++ [c])
         (fun idx => sum_n m (fun j => val t (firstn (List.length pre) idx
                                              ++ j :: skipn (List.length pre) idx)))).
Proof.
  intros Hs. unfold reduce_sum, rank. rewrite Hs, length_app.
  change (-2)%Z with (- Z.of_nat 2)%Z. rewrite axis_pos_from_end by (simpl; lia).
  replace (List.length pre + List.length [m; c] - 2)%nat with (List.length pre)
    by (simpl; lia).
  unfold reduce_shape, reduce_index.
  now rewrite firstn_app_exact, skipn_app_past, nth_middle.
Qed.

(** What [__init__] stores, when the base class accepts the keyword
    arguments left after [sum_points] has been taken out. *)
Lemma Preprocessing_init_fields (max_z0 : nat) (config : option dict)
    (type : string) (kwargs : dict) (self : Preprocessing) :
  Preprocessing_init max_z0 config type kwargs = Ok self ->
  self =
  {| sum_points := fst (dict_pop "sum_points" (VBool false) kwargs);
     max_z := max_z0;
     basis_config := match config with
                     | None => default_basis_config
                     | Some d => d
                     end;
     basis_type := type;
     one_hot := OneHot max_z0;
     basis_function :=
       (let basis_config := match config with
                            | None => default_basis_config
                            | Some d => d
                            end in
        if String.eqb type "cosine" then CosineBasis basis_config
        else if String.eqb type "shifted_cosine"
             then ShiftedCosineBasis basis_config
             else GaussianBasis basis_config);
     cutoff :=
       CosineCutoff
         (fst (dict_pop "cutoff" (VFloat (15 # 1))
                 (snd (dict_pop "sum_points" (VBool false) kwargs))));
     distance_matrix := DistanceMatrix;
     unit_vectors :=
       mkUnitVectors (fst (dict_pop "sum_points" (VBool false) kwargs)) |}.
Proof.
  unfold Preprocessing_init, UnitVectors_init.
  destruct (dict_pop "sum_points" (VBool false) kwargs) as [sp kw].
  destruct (keras_Layer_init kw) as [[]|e]; [|discriminate].
  cbn [Py.bind fst snd].
  destruct (dict_pop "cutoff" (VFloat (15 # 1)) kw) as [co kw'].
  destruct (keras_Layer_init []) as [[]|e]; [|discriminate].
  cbn [Py.bind fst]. intros H. now inversion H.
Qed.

(** C3: [__init__] selects CosineBasis exactly when [basis_type] is
    "cosine", ShiftedCosineBasis exactly when it is "shifted_cosine", and
    GaussianBasis for every other value ("gaussian" among them); the basis
    is built from [basis_config], which is the default dictionary
    {"width": 0.2, "spacing": 0.2, "min_value": -1.0, "max_value": 15.0}
    whenever the argument is [None]. *)
Theorem Preprocessing_init_basis (max_z0 : nat) (config : option dict)
    (type : string) (kwargs : dict) (self : Preprocessing) :
  Preprocessing_init max_z0 config type kwargs = Ok self ->
  ((exists kw, basis_function self = CosineBasis kw) <-> type = "cosine"%string) /\
  ((exists kw, basis_function self = ShiftedCosineBasis kw)
   <-> type = "shifted_cosine"%string) /\
  ((exists kw, basis_function self = GaussianBasis kw)
   <-> type <> "cosine"%string /\ type <> "shifted_cosine"%string) /\
  (type = "gaussian"%string ->
   basis_function self = GaussianBasis (basis_config self)) /\
  (exists kw, basis_function self = kw (basis_config self) /\
     (kw = CosineBasis \/ kw = ShiftedCosineBasis \/ kw = GaussianBasis)) /\
  (config = None ->
   basis_config self =
   [ ("width", VFloat (2 # 10)); ("spacing", VFloat (2 # 10));
     ("min_value", VFloat (- (1 # 1))); ("max_value", VFloat (15 # 1)) ]%string) /\
  (forall d, config = Some d -> basis_config self = d).
Proof.
  intros H. apply Preprocessing_init_fields in H. subst self.
  cbn [basis_function basis_config].
  set (cfg := match config with None => default_basis_config | Some d => d end).
  assert (Hcfg : (config = None -> cfg = default_basis_config) /\
                 (forall d, config = Some d -> cfg = d)).
  { subst cfg. split; [intros -> | intros d ->]; reflexivity. }
  clearbody cfg.
  destruct (String.eqb type "cosine") eqn:Ec;
    [apply String.eqb_eq in Ec
    | apply String.eqb_neq in Ec;
      destruct (String.eqb type "shifted_cosine") eqn:Es;
      [apply String.eqb_eq in Es | apply String.eqb_neq in Es]].
  all: split; [split; [intros [kw Hkw]; (discriminate || congruence)
                      | intros Ht; (congruence || eauto)]|].
  all: split; [split; [intros [kw Hkw]; (discriminate || congruence)
                      | intros Ht; (congruence || eauto)]|].
  all: split; [split; [intros [kw Hkw]; (discriminate || (split; congruence))
                      | intros [Ht1 Ht2]; (congruence || eauto)]|].
  all: split; [intros Ht; (congruence || reflexivity)|].
  all: split; [eexists; split; [reflexivity | tauto]|].
  all: exact Hcfg.
Qed.

Lemma bind_ok {A B : Type} (c : result A) (k : A -> result B) (b : B) :
  Py.bind c k = Ok b <-> exists a, c = Ok a /\ k a = Ok b.
Proof.
  destruct c as [a|e]; simpl; split.
  - eauto.
  - now intros (a' & [= <-] & H).
  - discriminate.
  - now intros (a' & [=] & _).
Qed.

Lemma Preprocessing_call_iff (max_z0 : nat) (config : option dict)
    (type : string) (kwargs : dict) (self : Preprocessing) (r z : tensor)
    (outs : list tensor) :
  Preprocessing_init max_z0 config type kwargs = Ok self ->
  Preprocessing_call self [r; z] = Ok outs <->
  exists one_hot_z dist_matrix basis image vectors rbf,
    atomic_images_call DistanceMatrix [r] = Ok dist_matrix /\
    atomic_images_call (basis_function self) [dist_matrix] = Ok basis /\
    atomic_images_call (cutoff self) [dist_matrix; basis] = Ok image /\
    UnitVectors_call (mkUnitVectors (sum_points self)) r = Ok vectors /\
    (if truthy (sum_points self)
     then reduce_sum image (-2) false = Ok rbf
     else rbf = image) /\
    atomic_images_call (OneHot max_z0) [z] = Ok one_hot_z /\
    outs = [one_hot_z; rbf; vectors].
Proof.
  intros H. apply Preprocessing_init_fields in H.
  unfold Preprocessing_call.
  replace (distance_matrix self) with DistanceMatrix by (now subst self).
  replace (unit_vectors self) with (mkUnitVectors (sum_points self))
    by (now subst self).
  replace (one_hot self) with (OneHot max_z0) by (now subst self).
  clear H. split.
  - intros Hc.
    apply bind_ok in Hc. destruct Hc as (d & Hd & Hc).
    apply bind_ok in Hc. destruct Hc as (b & Hb & Hc).
    apply bind_ok in Hc. destruct Hc as (img & Hi & Hc).
    apply bind_ok in Hc. destruct Hc as (v & Hv & Hc).
    apply bind_ok in Hc. destruct Hc as (rbf & Hr & Hc).
    apply bind_ok in Hc. destruct Hc as (oh & Ho & Hc).
    exists oh, d, b, img, v, rbf. repeat (split; [assumption|]).
    split; [|split; [assumption | congruence]].
    destruct (truthy (sum_points self)); congruence.
  - intros (oh & d & b & img & v & rbf & Hd & Hb & Hi & Hv & Hr & Ho & ->).
    rewrite Hd. cbn [Py.bind]. rewrite Hb. cbn [Py.bind].
    rewrite Hi. cbn [Py.bind]. rewrite Hv. cbn [Py.bind].
    destruct (truthy (sum_points self)); [rewrite Hr | subst rbf];
      cbn [Py.bind]; now rewrite Ho.
Qed.

(** Summing over the second-to-last axis removes that axis and adds up the
    elements along it. *)
Lemma reduce_sum_second_last_elements (image rbf : tensor) (pre : list nat)
    (m c : nat) :
  reduce_sum image (-2) false = Ok rbf ->
  shape image = pre ++ [m; c] ->
  shape rbf = pre ++ [c] /\
  forall ipre k,
    List.length ipre = List.length pre ->
    val rbf (ipre ++ [k]) = sum_n m (fun j => val image (ipre ++ [j; k])).
Proof.
  intros Hr Hs.
  rewrite (reduce_sum_second_last image pre m c Hs) in Hr.
  inversion Hr; subst rbf. cbn [shape val]. split; [reflexivity|].
  intros ipre k Hlen. rewrite <- Hlen.
  now rewrite firstn_app_exact, skipn_app_exact.
Qed.

Lemma Preprocessing_init_layers (max_z0 : nat) (config : option dict)
    (type : string) (kwargs : dict) (self : Preprocessing) :
  Preprocessing_init max_z0 config type kwargs = Ok self ->
  sum_points self = fst (dict_pop "sum_points" (VBool false) kwargs) /\
  max_z self = max_z0 /\
  (exists c, cutoff self = CosineCutoff c) /\
  (exists kw, basis_function self = kw (basis_config self) /\
     (kw = CosineBasis \/ kw = ShiftedCosineBasis \/ kw = GaussianBasis)).
Proof.
  intros H. apply Preprocessing_init_fields in H.
  split; [now subst self|]. split; [now subst self|].
  split; [subst self; cbn [cutoff]; eauto|].
  subst self. cbn [basis_function basis_config].
  destruct (String.eqb type "cosine");
    [|destruct (String.eqb type "shifted_cosine")];
    eexists; (split; [reflexivity | tauto]).
Qed.

Lemma UnitVectors_call_pairs (self : UnitVectors) (r : tensor)
    (pre : list nat) (n c : nat) :
  truthy (uv_sum_points self) = false ->
  shape r = pre ++ [n; c] ->
  exists out,
    UnitVectors_call self r = Ok out /\
    shape out = pre ++ [n; n; c] /\
    forall ipre i j k,
      in_range pre ipre -> (i < n)%nat -> (j < n)%nat -> (k < c)%nat ->
      val out (ipre ++ [i; j; k]) =
      (val r (ipre ++ [i; k]) - val r (ipre ++ [j; k]))
      / R_sqrt.sqrt
          (Rmax (sum_n c (fun k' =>
                            (val r (ipre ++ [i; k']) - val r (ipre ++ [j; k']))
                            * (val r (ipre ++ [i; k']) - val r (ipre ++ [j; k']))))
                EPSILON).
Proof.
  intros Hsum Hs. unfold UnitVectors_call. rewrite Hsum.
  destruct (pairwise_differences r pre n c Hs) as (v & Hv & Hsv & Hval).
  rewrite Hv. cbn [Py.bind].
  assert (Hsv' : shape v = (pre ++ [n; n]) ++ [c])
    by (now rewrite Hsv, <- app_assoc).
  destruct (normalize_last v _ c Hsv') as (out & Hout & Hso & Hq).
  exists out. split; [exact Hout|]. split; [now rewrite Hso, <- app_assoc|].
  intros ipre i j k Hpre Hi Hj Hk.
  change (ipre ++ [i; j; k]) with (ipre ++ [i; j] ++ [k]).
  rewrite app_assoc, Hq;
    [|apply in_range_app; [assumption|]; repeat constructor; assumption
     | assumption].
  rewrite <- app_assoc. simpl. rewrite Hval by assumption.
  do 3 f_equal. apply sum_n_ext. intros k' Hk'.
  rewrite <- app_assoc. simpl. now rewrite Hval.
Qed.

Lemma UnitVectors_call_points (self : UnitVectors) (r : tensor)
    (pre : list nat) (n c : nat) :
  truthy (uv_sum_points self) = true ->
  shape r = pre ++ [n; c] ->
  exists out,
    UnitVectors_call self r = Ok out /\
    shape out = pre ++ [n; c] /\
    forall ipre i k,
      in_range pre ipre -> (i < n)%nat -> (k < c)%nat ->
      val out (ipre ++ [i; k]) =
      val r (ipre ++ [i; k])
      / R_sqrt.sqrt
          (Rmax (sum_n c (fun k' => val r (ipre ++ [i; k'])
                                    * val r (ipre ++ [i; k'])))
                EPSILON).
Proof.
  intros Hsum Hs. unfold UnitVectors_call. rewrite Hsum. cbn [Py.bind].
  assert (Hs' : shape r = (pre ++ [n]) ++ [c]) by (now rewrite Hs, <- app_assoc).
  destruct (normalize_last r _ c Hs') as (out & Hout & Hso & Hq).
  exists out. split; [exact Hout|]. split; [now rewrite Hso, <- app_assoc|].
  intros ipre i k Hpre Hi Hk.
  change (ipre ++ [i; k]) with (ipre ++ [i] ++ [k]).
  rewrite app_assoc, Hq;
    [|apply in_range_app; [assumption|]; repeat constructor; assumption
     | assumption].
  rewrite <- app_assoc. simpl.
  do 3 f_equal. apply sum_n_ext. intros k' Hk'. now rewrite <- app_assoc.
Qed.

(** C1: for a layer built by [__init__], [call] on the pair (r, z) returns
    exactly the three tensors [one-hot encoding of z with depth max_z;
    cutoff-weighted basis expansion of the distance matrix of r; unit
    vectors of r], in this order; when the layer was built with a true
    [sum_points], the second one is first summed over its second-to-last
    axis.  The third tensor holds, for positions of shape (..., n, c), the
    differences r_i - r_j divided by their guarded norms (the positions
    divided by their own guarded norms with [sum_points]); the norm is that
    of [norm_with_epsilon], which is modelled from the spec. *)
Theorem Preprocessing_call_outputs (max_z0 : nat) (config : option dict)
    (type : string) (kwargs : dict) (self : Preprocessing) (r z : tensor) :
  Preprocessing_init max_z0 config type kwargs = Ok self ->
  (forall outs,
     Preprocessing_call self [r; z] = Ok outs <->
     exists one_hot_z dist_matrix basis image vectors rbf,
       atomic_images_call DistanceMatrix [r] = Ok dist_matrix /\
       atomic_images_call (basis_function self) [dist_matrix] = Ok basis /\
       atomic_images_call (cutoff self) [dist_matrix; basis] = Ok image /\
       UnitVectors_call (mkUnitVectors (sum_points self)) r = Ok vectors /\
       (if truthy (sum_points self)
        then reduce_sum image (-2) false = Ok rbf
        else rbf = image) /\
       atomic_images_call (OneHot max_z0) [z] = Ok one_hot_z /\
       outs = [one_hot_z; rbf; vectors]) /\
  (forall image rbf pre m c,
     reduce_sum image (-2) false = Ok rbf ->
     shape image = pre ++ [m; c] ->
     shape rbf = pre ++ [c] /\
     forall ipre k,
       List.length ipre = List.length pre ->
       val rbf (ipre ++ [k]) = sum_n m (fun j => val image (ipre ++ [j; k]))) /\
  (forall v, dict_get "sum_points" kwargs = Some v -> sum_points self = v) /\
  (dict_get "sum_points" kwargs = None -> sum_points self = VBool false) /\
  (exists c, cutoff self = CosineCutoff c) /\
  (exists kw, basis_function self = kw (basis_config self) /\
     (kw = CosineBasis \/ kw = ShiftedCosineBasis \/ kw = GaussianBasis)) /\
  (forall outs pre n c,
     Preprocessing_call self [r; z] = Ok outs ->
     shape r = pre ++ [n; c] ->
     exists one_hot_z rbf vectors,
       outs = [one_hot_z; rbf; vectors] /\
       (truthy (sum_points self) = false ->
        shape vectors = pre ++ [n; n; c] /\
        forall ipre i j k,
          in_range pre ipre -> (i < n)%nat -> (j < n)%nat -> (k < c)%nat ->
          val vectors (ipre ++ [i; j; k]) =
          (val r (ipre ++ [i; k]) - val r (ipre ++ [j; k]))
          / R_sqrt.sqrt
              (Rmax (sum_n c (fun k' =>
                        (val r (ipre ++ [i; k']) - val r (ipre ++ [j; k']))
                        * (val r (ipre ++ [i; k']) - val r (ipre ++ [j; k']))))
                    EPSILON)) /\
       (truthy (sum_points self) = true ->
        shape vectors = pre ++ [n; c] /\
        forall ipre i k,
          in_range pre ipre -> (i < n)%nat -> (k < c)%nat ->
          val vectors (ipre ++ [i; k]) =
          val r (ipre ++ [i; k])
          / R_sqrt.sqrt
              (Rmax (sum_n c (fun k' => val r (ipre ++ [i; k'])
                                        * val r (ipre ++ [i; k'])))
                    EPSILON))).
Proof.
  intros H.
  split; [intros outs; now apply (Preprocessing_call_iff max_z0 config type kwargs)|].
  split; [exact reduce_sum_second_last_elements|].
  destruct (Preprocessing_init_layers _ _ _ _ _ H) as (Hsp & _ & Hco & Hb).
  pose proof Hsp as Hpop. unfold dict_pop in Hpop.
  split; [intros v Hv; now rewrite Hv in Hpop|].
  split; [intros Hv; now rewrite Hv in Hpop|].
  split; [exact Hco|]. split; [exact Hb|].
  intros outs pre n c Hcall Hs.
  apply (Preprocessing_call_iff _ _ _ _ _ _ _ _ H) in Hcall.
  destruct Hcall as (oh & d & b & img & v & rbf & _ & _ & _ & Hv & _ & _ & ->).
  exists oh, rbf, v. split; [reflexivity|]. split; intros Hsum.
  - destruct (UnitVectors_call_pairs (mkUnitVectors (sum_points self)) r pre n c
                Hsum Hs) as (out & Hout & Hso & Hval).
    rewrite Hout in Hv. inversion Hv; subst v. now split.
  - destruct (UnitVectors_call_points (mkUnitVectors (sum_points self)) r pre n c
                Hsum Hs) as (out & Hout & Hso & Hval).
    rewrite Hout in Hv. inversion Hv; subst v. now split.
Qed.

(** The output shapes of the layers of [atomic_images], as their package
    documents them and as the docstring of [Preprocessing] repeats them: the
    one-hot encoding appends an axis of length [depth], the distance matrix
    of (..., points, 3) is (..., points, points), a basis layer appends an
    axis of length [_n_centers], and the cutoff keeps the shape of the
    basis image. *)
Definition atomic_images_shapes : Prop :=
  (forall depth z out,
     atomic_images_call (OneHot depth) [z] = Ok out ->
     shape out = shape z ++ [depth]) /\
  (forall r out pre n c,
     atomic_images_call DistanceMatrix [r] = Ok out ->
     shape r = pre ++ [n; c] ->
     shape out = pre ++ [n; n]) /\
  (forall kw config d out,
     kw = CosineBasis \/ kw = ShiftedCosineBasis \/ kw = GaussianBasis ->
     atomic_images_call (kw config) [d] = Ok out ->
     shape out = shape d ++ [n_centers (kw config)]) /\
  (forall c d basis out,
     atomic_images_call (CosineCutoff c) [d; basis] = Ok out ->
     shape out = shape basis).

(** C10: for a layer built by [__init__] over layers of [atomic_images]
    with their documented output shapes, [compute_output_shape] reports the
    second output as (batch, points, points, n_centers).  With a true
    [sum_points] the second tensor [call] returns has the rank-3 shape
    (batch, points, n_centers), so the reported shapes differ from the
    actual ones; reported and actual shapes agree exactly when [sum_points]
    is false. *)
Theorem Preprocessing_output_shape_mismatch (max_z0 : nat)
    (config : option dict) (type : string) (kwargs : dict)
    (self : Preprocessing) (r z : tensor) (batch points : nat)
    (outs : list tensor) :
  atomic_images_shapes ->
  Preprocessing_init max_z0 config type kwargs = Ok self ->
  shape r = [batch; points; 3%nat] ->
  shape z = [batch; points] ->
  Preprocessing_call self [r; z] = Ok outs ->
  let nc := n_centers (basis_function self) in
  exists reported,
    Preprocessing_compute_output_shape self [shape r; shape z] = Ok reported /\
    nth 1 reported [] = [batch; points; points; nc] /\
    (truthy (sum_points self) = true ->
     nth 1 (map shape outs) [] = [batch; points; nc] /\
     List.length (nth 1 (map shape outs) []) = 3%nat /\
     List.length (nth 1 reported []) = 4%nat) /\
    (map shape outs = reported <-> truthy (sum_points self) = false).
Proof.
  intros (Hoh & Hdm & Hbasis & Hcut) Hinit Hr Hz Hcall nc.
  destruct (Preprocessing_init_layers _ _ _ _ _ Hinit)
    as (_ & Hmaxz & [co Hco] & (kw & Hkw & Hcls)).
  apply (Preprocessing_call_iff _ _ _ _ _ _ _ _ Hinit) in Hcall.
  destruct Hcall as (oh & d & b & img & v & rbf & Hd & Hb & Hi & Hv & Hrbf & Ho & ->).
  apply Hoh in Ho. rewrite Hz in Ho.
  apply (Hdm r d [batch] points 3%nat) in Hd; [|exact Hr].
  subst nc. rewrite Hkw in Hb |- *. apply (Hbasis kw _ d b Hcls) in Hb.
  rewrite Hco in Hi. apply Hcut in Hi. rewrite Hb, Hd in Hi. cbn in Hi.
  unfold Preprocessing_compute_output_shape. rewrite Hr, Hkw, Hmaxz.
  eexists. split; [reflexivity|]. split; [reflexivity|]. cbn [map nth].
  unfold UnitVectors_call in Hv. cbn [uv_sum_points] in Hv.
  destruct (truthy (sum_points self)) eqn:Esp.
  - destruct (reduce_sum_second_last_elements img rbf [batch; points] points
                (n_centers (kw (basis_config self))) Hrbf Hi) as [Hsr _].
    split; [intros _; rewrite Hsr; repeat split|].
    split; [|discriminate].
    intros Heq. inversion Heq as [[H1 H2 H3]]. rewrite Hsr in H2. discriminate.
  - subst rbf. split; [discriminate|]. split; [intros _; reflexivity|]. intros _.
    destruct (pairwise_differences r [batch] points 3%nat Hr)
      as (pd & Hpd & Hspd & _).
    rewrite Hpd in Hv. cbn [Py.bind] in Hv.
    destruct (normalize_last pd [batch; points; points] 3%nat Hspd)
      as (out & Hout & Hso & _).
    rewrite Hout in Hv. inversion Hv; subst v.
    now rewrite Ho, Hi, Hso.
Qed.

(** ** Further properties of UnitVectors *)

(** X9: the vectors of [UnitVectors.call] (without [sum_points]) are
    antisymmetric in the two points: the entry for (j, i) is the negative of
    the entry for (i, j). *)
Theorem UnitVectors_call_antisymmetric (self : UnitVectors) (r : tensor)
    (pre : list nat) (n c : nat) :
  truthy (uv_sum_points self) = false ->
  shape r = pre ++ [n; c] ->
  exists out,
    UnitVectors_call self r = Ok out /\
    forall ipre i j k,
      in_range pre ipre -> (i < n)%nat -> (j < n)%nat -> (k < c)%nat ->
      val out (ipre ++ [j; i; k]) = - val out (ipre ++ [i; j; k]).
Proof.
  intros Hsum Hs.
  destruct (UnitVectors_call_pairs self r pre n c Hsum Hs)
    as (out & Hout & _ & Hval).
  exists out. split; [exact Hout|].
  intros ipre i j k Hpre Hi Hj Hk.
  rewrite !Hval by assumption.
  rewrite (sum_n_ext c _
             (fun k' => (val r (ipre ++ [i; k']) - val r (ipre ++ [j; k']))
                        * (val r (ipre ++ [i; k']) - val r (ipre ++ [j; k']))))
    by (intros; ring).
  unfold Rdiv. ring.
Qed.

Lemma shape_last_two (s : list nat) :
  (2 <= List.length s)%nat -> exists pre n c, s = pre ++ [n; c].
Proof.
  intros H.
  destruct (exists_last (l := s)) as (s' & c & ->);
    [intros ->; simpl in H; lia|].
  rewrite length_app in H. simpl in H.
  destruct (exists_last (l := s')) as (pre & n & ->);
    [intros ->; simpl in H; lia|].
  exists pre, n, c. now rewrite <- app_assoc.
Qed.

(** X10: [UnitVectors.call] returns exactly for inputs with enough axes: at
    least two without [sum_points] (with fewer, [expand_dims] at axis -3 or
    -2 is out of range), at least one with [sum_points] (a scalar has no
    last axis to take the norm along).  Every other input raises. *)
Theorem UnitVectors_call_rank (self : UnitVectors) (r : tensor) :
  is_ok (UnitVectors_call self r)
  = (if truthy (uv_sum_points self) then Nat.leb 1 (rank r)
     else Nat.leb 2 (rank r))
  /\ (is_ok (UnitVectors_call self r) = false ->
      UnitVectors_call self r = Raise ValueError).
Proof.
  unfold rank. destruct (truthy (uv_sum_points self)) eqn:Hsum.
  - destruct (shape r) as [|d s] eqn:Hs.
    + unfold UnitVectors_call, norm_with_epsilon, reduce_sum, rank, square,
        map_elements. rewrite Hsum. cbn [shape Py.bind]. rewrite Hs.
      cbn. split; [reflexivity | intros _; reflexivity].
    + destruct (exists_last (l := d :: s)) as (s' & c & Hl); [discriminate|].
      rewrite Hl in Hs. unfold UnitVectors_call. rewrite Hsum. cbn [Py.bind].
      destruct (normalize_last r s' c Hs) as (out & Hout & _).
      rewrite Hout. split; [reflexivity | discriminate].
  - destruct (le_lt_dec 2 (List.length (shape r))) as [Hge|Hlt].
    + destruct (shape_last_two _ Hge) as (pre & n & c & Hs).
      destruct (UnitVectors_call_pairs self r pre n c Hsum Hs) as (out & Hout & _).
      rewrite Hout. replace (Nat.leb 2 (List.length (shape r))) with true
        by (symmetry; now apply Nat.leb_le).
      split; [reflexivity | discriminate].
    + replace (Nat.leb 2 (List.length (shape r))) with false
        by (symmetry; apply Nat.leb_gt; exact Hlt).
      unfold UnitVectors_call, expand_dims, rank. rewrite Hsum.
      destruct (shape r) as [|d [|d' s]]; [| |simpl in Hlt; lia];
        cbn; split; reflexivity || (intros _; reflexivity).
Qed.


(** ** [Preprocessing.get_config] and the keyword [cutoff] *)

Local Open Scope string_scope.

(** [base] is what [super().get_config()] returns. *)
Definition Preprocessing_get_config (base : dict) (self : Preprocessing) : dict :=
  let updates := [ ("max_z", VInt (Z.of_nat (max_z self)));
                   ("basis_config", VDict (basis_config self)) ] in
  PyDict.dict_merge base updates.

Lemma Preprocessing_get_config_lookup (base : dict) (self : Preprocessing)
    (key : string) :
  dict_get key (Preprocessing_get_config base self) =
  if String.eqb key "basis_config" then Some (VDict (basis_config self))
  else if String.eqb key "max_z" then Some (VInt (Z.of_nat (max_z self)))
       else dict_get key base.
Proof.
  unfold Preprocessing_get_config, PyDict.dict_merge. cbn [fold_left fst snd].
  destruct (String.eqb key "basis_config") eqn:Eb.
  - apply String.eqb_eq in Eb. subst key. apply PyDict.dict_get_set_same.
  - apply String.eqb_neq in Eb.
    rewrite PyDict.dict_get_set_other by exact Eb.
    destruct (String.eqb key "max_z") eqn:Em.
    + apply String.eqb_eq in Em. subst key. apply PyDict.dict_get_set_same.
    + apply String.eqb_neq in Em. now apply PyDict.dict_get_set_other.
Qed.

(** X6: for every key, [get_config] answers with [basis_config] of the
    layer under "basis_config", with [max_z] under "max_z" (whatever the
    base configuration holds under these two names), and with the entry of
    the base configuration under any other key.  So "basis_type",
    "sum_points" and "cutoff" are in the configuration only if the base
    class put them there: [get_config] itself records none of them. *)
Theorem Preprocessing_get_config_entries (base : dict) (self : Preprocessing) :
  (forall key,
     dict_get key (Preprocessing_get_config base self) =
     if String.eqb key "basis_config" then Some (VDict (basis_config self))
     else if String.eqb key "max_z" then Some (VInt (Z.of_nat (max_z self)))
          else dict_get key base) /\
  dict_get "basis_type" (Preprocessing_get_config base self)
  = dict_get "basis_type" base /\
  dict_get "sum_points" (Preprocessing_get_config base self)
  = dict_get "sum_points" base /\
  dict_get "cutoff" (Preprocessing_get_config base self)
  = dict_get "cutoff" base.
Proof.
  split; [intros key; apply Preprocessing_get_config_lookup|].
  now rewrite !Preprocessing_get_config_lookup.
Qed.

(** X7: the keyword [cutoff] is read only after the keyword arguments have
    gone to the constructor of the base class, so the base class sees it.
    With a base class that rejects a keyword [cutoff], as the Keras [Layer]
    does with every keyword it does not know, [__init__] raises whenever
    [cutoff] is given, and every layer it does build has the cutoff 15.0. *)
Theorem Preprocessing_init_cutoff (max_z0 : nat) (config : option dict)
    (type : string) (kwargs : dict) :
  (forall kw, dict_get "cutoff" kw <> None -> keras_Layer_init kw = Raise TypeError) ->
  (dict_get "cutoff" kwargs <> None ->
   Preprocessing_init max_z0 config type kwargs = Raise TypeError) /\
  (forall self,
     Preprocessing_init max_z0 config type kwargs = Ok self ->
     cutoff self = CosineCutoff (VFloat (15 # 1))).
Proof.
  intros Hkeras.
  assert (Hget : dict_get "cutoff" (snd (dict_pop "sum_points" (VBool false) kwargs))
                 = dict_get "cutoff" kwargs)
    by (apply PyDict.dict_get_pop_other; discriminate).
  split.
  - intros Hc. unfold Preprocessing_init.
    destruct (dict_pop "sum_points" (VBool false) kwargs) as [sp kw]. cbn [snd] in Hget.
    rewrite Hkeras by (now rewrite Hget). reflexivity.
  - intros self Hinit.
    pose proof (Preprocessing_init_fields _ _ _ _ _ Hinit) as Hself.
    unfold Preprocessing_init in Hinit.
    destruct (dict_pop "sum_points" (VBool false) kwargs) as [sp kw].
    cbn [snd fst] in *.
    destruct (dict_get "cutoff" kw) as [c|] eqn:Ec.
    + rewrite Hkeras in Hinit by (rewrite Ec; discriminate). discriminate.
    + subst self. cbn [cutoff]. unfold dict_pop. now rewrite Ec.
Qed.

End Layers.

(** Two points in the plane, (0, 0) and (3, 4), as a tensor of shape (2, 2). *)
Definition two_points : tensor :=
  mk [2; 2]%nat
     (fun idx =>
        match idx with
        | [1; 0]%nat => 3
        | [1; 1]%nat => 4
        | _ => 0
        end)%R.

Lemma UnitVectors_call_spec_witness :
  exists out,
    UnitVectors_call (/ 100000000)%R (mkUnitVectors (VBool false)) two_points
    = Ok out /\
    shape out = [2; 2; 2]%nat /\
    val out [1; 0; 0]%nat
    = ((3 - 0) / R_sqrt.sqrt (Rmax (0 + (3 - 0) * (3 - 0) + (4 - 0) * (4 - 0))
                                   (/ 100000000)))%R /\
    val out [1; 1; 0]%nat = 0%R.
Proof.
  assert (He : (0 < / 100000000)%R) by Lra.lra.
  destruct (UnitVectors_call_spec (/ 100000000)%R (mkUnitVectors (VBool false))
              two_points [] 2 2 He eq_refl) as [Hfalse _].
  destruct (Hfalse eq_refl) as (out & Hout & Hs & Hval).
  exists out. split; [exact Hout|]. split; [exact Hs|].
  split.
  - destruct (Hval [] 1%nat 0%nat 0%nat) as (_ & Hq & _);
      [constructor | lia | lia | lia |].
    exact Hq.
  - destruct (Hval [] 1%nat 1%nat 0%nat) as (_ & _ & _ & Hz);
      [constructor | lia | lia | lia |].
    exact Hz.
Defined.

(** *** An instance of what the layers take from outside

    A base class that accepts the keyword arguments [name], [trainable] and
    [dtype], and layers of [atomic_images] that have the documented output
    shapes and zero elements.  They instantiate the assumptions of the
    theorems above. *)

Definition example_Layer_init (kwargs : dict) : result unit :=
  if forallb (fun kv => existsb (String.eqb (fst kv))
                          ["name"; "trainable"; "dtype"]%string) kwargs
  then Ok tt else Raise TypeError.

Definition zeros (s : list nat) : tensor := mk s (fun _ => 0%R).

Definition example_n_centers (l : atomic_images_layer) : nat := 80.

Definition example_call (l : atomic_images_layer) (inputs : list tensor)
  : result tensor :=
  match l, inputs with
  | OneHot depth, [z] => Ok (zeros (shape z ++ [depth]))
  | DistanceMatrix, [r] =>
      match rev (shape r) with
      | _ :: n :: s => Ok (zeros (rev s ++ [n; n]))
      | _ => Raise ValueError
      end
  | CosineCutoff _, [_; basis] => Ok (zeros (shape basis))
  | OneHot _, _ | DistanceMatrix, _ | CosineCutoff _, _ => Raise ValueError
  | basis, [d] => Ok (zeros (shape d ++ [example_n_centers basis]))
  | _, _ => Raise ValueError
  end.

(** One molecule of two atoms, at (0, 0, 0) and (3, 4, 0). *)
Definition example_r : tensor :=
  mk [1; 2; 3]%nat
     (fun idx =>
        match idx with
        | [0; 1; 0]%nat => 3
        | [0; 1; 1]%nat => 4
        | _ => 0
        end)%R.

Definition example_z : tensor := mk [1; 2]%nat (fun _ => 1%R).

Lemma example_call_shapes : atomic_images_shapes example_call example_n_centers.
Proof.
  repeat split.
  - intros depth z out H. simpl in H. now inversion H.
  - intros r out pre n c H Hs. simpl in H. rewrite Hs in H.
    rewrite rev_app_distr in H. simpl in H. inversion H. simpl.
    now rewrite rev_involutive.
  - intros kw config d out [-> | [-> | ->]] H; simpl in H; now inversion H.
  - intros c d basis out H. simpl in H. now inversion H.
Qed.

(** The layer [Preprocessing(36, sum_points=True)]. *)
Definition example_layer : Preprocessing :=
  {| sum_points := VBool true;
     max_z := 36;
     basis_config := default_basis_config;
     basis_type := "gaussian";
     one_hot := OneHot 36;
     basis_function := GaussianBasis default_basis_config;
     cutoff := CosineCutoff (VFloat (15 # 1));
     distance_matrix := DistanceMatrix;
     unit_vectors := mkUnitVectors (VBool true) |}.

Lemma example_layer_init :
  Preprocessing_init example_Layer_init 36 None "gaussian"
    [("sum_points", VBool true)]%string = Ok example_layer.
Proof. reflexivity. Qed.

Lemma Preprocessing_init_basis_witness :
  exists self,
    Preprocessing_init example_Layer_init 36 None "shifted_cosine"
      [("name", VStr "preprocessing")]%string = Ok self /\
    (exists kw, basis_function self = ShiftedCosineBasis kw) /\
    basis_config self =
    [ ("width", VFloat (2 # 10)); ("spacing", VFloat (2 # 10));
      ("min_value", VFloat (- (1 # 1))); ("max_value", VFloat (15 # 1)) ]%string.
Proof.
  eexists. split; [reflexivity|].
  destruct (Preprocessing_init_basis example_Layer_init 36 None "shifted_cosine"
              [("name", VStr "preprocessing")]%string _ eq_refl)
    as (_ & Hshifted & _ & _ & _ & Hdefault & _).
  split; [apply Hshifted; reflexivity | apply Hdefault; reflexivity].
Defined.

Lemma Preprocessing_call_outputs_witness :
  exists one_hot_z rbf vectors,
    Preprocessing_call example_call (/ 100000000)%R example_layer
      [example_r; example_z] = Ok [one_hot_z; rbf; vectors] /\
    map shape [one_hot_z; rbf; vectors]
    = [[1; 2; 36]; [1; 2; 80]; [1; 2; 3]]%nat /\
    val vectors [0; 1; 0]%nat
    = (3 / R_sqrt.sqrt (Rmax (0 + 3 * 3 + 4 * 4 + 0 * 0) (/ 100000000)))%R /\
    val vectors [0; 0; 0]%nat
    = (0 / R_sqrt.sqrt (Rmax (0 + 0 * 0 + 0 * 0 + 0 * 0) (/ 100000000)))%R.
Proof.
  destruct (Preprocessing_call_outputs example_Layer_init example_call
              (/ 100000000)%R 36 None "gaussian"
              [("sum_points", VBool true)]%string example_layer
              example_r example_z example_layer_init)
    as (Hiff & _ & _ & _ & _ & _ & Hvectors).
  assert (Hc : exists outs,
             Preprocessing_call example_call (/ 100000000)%R example_layer
               [example_r; example_z] = Ok outs /\
             map shape outs = [[1; 2; 36]; [1; 2; 80]; [1; 2; 3]]%nat).
  { eexists. split.
    - apply Hiff. do 6 eexists.
      split; [reflexivity|]. split; [reflexivity|]. split; [reflexivity|].
      split; [reflexivity|]. split; [cbn; reflexivity|].
      split; reflexivity.
    - reflexivity. }
  destruct Hc as (outs & Hc & Hshapes).
  destruct (Hvectors outs [1%nat] 2%nat 3%nat Hc eq_refl)
    as (oh & rbf & v & -> & _ & Htrue).
  destruct (Htrue eq_refl) as (_ & Hval).
  exists oh, rbf, v. split; [exact Hc|]. split; [exact Hshapes|].
  split.
  - apply (Hval [0%nat] 1%nat 0%nat); [repeat constructor | lia | lia].
  - apply (Hval [0%nat] 0%nat 0%nat); [repeat constructor | lia | lia].
Defined.

Lemma Preprocessing_output_shape_mismatch_witness :
  exists outs reported,
    Preprocessing_call example_call (/ 100000000)%R example_layer
      [example_r; example_z] = Ok outs /\
    Preprocessing_compute_output_shape example_n_centers example_layer
      [[1; 2; 3]; [1; 2]]%nat = Ok reported /\
    nth 1 reported [] = [1; 2; 2; 80]%nat /\
    nth 1 (map shape outs) [] = [1; 2; 80]%nat /\
    map shape outs <> reported.
Proof.
  assert (Hc : exists outs,
             Preprocessing_call example_call (/ 100000000)%R example_layer
               [example_r; example_z] = Ok outs) by (eexists; reflexivity).
  destruct Hc as [outs Hc].
  destruct (Preprocessing_output_shape_mismatch example_Layer_init example_call
              example_n_centers (/ 100000000)%R 36 None "gaussian"
              [("sum_points", VBool true)]%string example_layer
              example_r example_z 1 2 outs
              example_call_shapes example_layer_init eq_refl eq_refl Hc)
    as (reported & Hrep & Hsecond & Htrue & Hagree).
  exists outs, reported.
  destruct (Htrue eq_refl) as (Hactual & _ & _).
  repeat (split; [assumption|]).
  intros Heq. apply Hagree in Heq. discriminate.
Defined.

(** *** Instances for the further properties *)

Lemma example_Layer_init_rejects_cutoff (kw : dict) :
  dict_get "cutoff" kw <> None -> example_Layer_init kw = Raise TypeError.
Proof.
  unfold example_Layer_init. induction kw as [|[k v] kw IH]; simpl.
  - congruence.
  - destruct (String.eqb k "cutoff") eqn:E.
    + apply String.eqb_eq in E. subst k. reflexivity.
    + intros H. specialize (IH H).
      destruct (forallb _ kw); [discriminate IH|].
      now rewrite andb_false_r.
Qed.

Lemma Preprocessing_init_cutoff_witness :
  Preprocessing_init example_Layer_init 36 None "gaussian"
    [("cutoff", VFloat (5 # 1))]%string = Raise TypeError /\
  cutoff example_layer = CosineCutoff (VFloat (15 # 1)).
Proof.
  split.
  - apply (Preprocessing_init_cutoff example_Layer_init 36 None "gaussian"
             [("cutoff", VFloat (5 # 1))]%string
             example_Layer_init_rejects_cutoff).
    discriminate.
  - apply (Preprocessing_init_cutoff example_Layer_init 36 None "gaussian"
             [("sum_points", VBool true)]%string
             example_Layer_init_rejects_cutoff).
    exact example_layer_init.
Defined.

Lemma UnitVectors_call_antisymmetric_witness :
  exists out,
    UnitVectors_call (/ 100000000)%R (mkUnitVectors (VBool false)) two_points
    = Ok out /\
    (val out [0; 1; 0]%nat = - val out [1; 0; 0]%nat)%R.
Proof.
  destruct (UnitVectors_call_antisymmetric (/ 100000000)%R
              (mkUnitVectors (VBool false)) two_points [] 2 2 eq_refl eq_refl)
    as (out & Hout & Hanti).
  exists out. split; [exact Hout|].
  apply (Hanti [] 1%nat 0%nat 0%nat); [constructor | lia | lia | lia].
Defined.


End UtilityLayers.

(* ===================================================================== *)
(** * [tfn/tools/callbacks.py]: ClassificationMetrics *)
(* ===================================================================== *)

Module ClassificationMetrics.

Local Open Scope Q_scope.
Local Open Scope py_scope.

(** The literal [1e-7]. *)
Definition epsilon : Q := 1 # 10000000.

(** [np.sum(np.round(np.clip(a, 0, 1)))] *)
Definition positives (a : Numpy.ndarray) : Q :=
  Numpy.sum (Numpy.round (Numpy.clip a 0 1)).

Definition recall (y_true y_pred : Numpy.ndarray) : result Q :=
  prod <- Numpy.multiply y_true y_pred ;;
  let true_positives := Numpy.sum (Numpy.round (Numpy.clip prod 0 1)) in
  let possible_positives := Numpy.sum (Numpy.round (Numpy.clip y_true 0 1)) in
  Numpy.divide true_positives (possible_positives + epsilon).

Definition precision (y_true y_pred : Numpy.ndarray) : result Q :=
  prod <- Numpy.multiply y_true y_pred ;;
  let true_positives := Numpy.sum (Numpy.round (Numpy.clip prod 0 1)) in
  let predicted_positives := Numpy.sum (Numpy.round (Numpy.clip y_pred 0 1)) in
  Numpy.divide true_positives (predicted_positives + epsilon).

Definition f1_score (y_true y_pred : Numpy.ndarray) : result Q :=
  recall <- recall y_true y_pred ;;
  precision <- precision y_true y_pred ;;
  q <- Numpy.divide (precision * recall) (precision + recall + epsilon) ;;
  Ok (2 * q).

(** ** Properties *)

Lemma round_half_even_nonneg (x : Q) : 0 <= x -> 0 <= Numpy.round_half_even x.
Proof.
  intros Hx. unfold Numpy.round_half_even.
  assert (Hf : (0 <= Qfloor x)%Z).
  { change 0%Z with (Qfloor 0). now apply Qfloor_resp_le. }
  assert (H0 : 0 <= inject_Z (Qfloor x)).
  { change 0 with (inject_Z 0). rewrite <- Zle_Qle. exact Hf. }
  assert (H1 : 0 <= inject_Z (Qfloor x + 1)).
  { change 0 with (inject_Z 0). rewrite <- Zle_Qle. lia. }
  destruct (x - inject_Z (Qfloor x) ?= 1 # 2); try assumption.
  destruct (Z.even (Qfloor x)); assumption.
Qed.

Lemma clip_unit_nonneg (x : Q) : 0 <= Qmin 1 (Qmax x 0).
Proof.
  apply Q.min_glb.
  - discriminate.
  - apply Q.le_max_r.
Qed.

Lemma positives_nonneg (a : Numpy.ndarray) : 0 <= positives a.
Proof.
  unfold positives, Numpy.round, Numpy.clip, Numpy.sum.
  induction a as [|x a IH]; simpl.
  - discriminate.
  - pose proof (round_half_even_nonneg _ (clip_unit_nonneg x)) as Hx.
    Lqa.lra.
Qed.

Lemma denominator_pos (a : Numpy.ndarray) : 0 < positives a + epsilon.
Proof.
  pose proof (positives_nonneg a). unfold epsilon. Lqa.lra.
Qed.

Lemma divide_pos (x y : Q) : 0 < y -> Numpy.divide x y = Ok (x / y).
Proof.
  intros Hy. unfold Numpy.divide.
  destruct (Qeq_bool y 0) eqn:E; [|reflexivity].
  apply Qeq_bool_iff in E. Lqa.lra.
Qed.

Lemma divide_nonneg (x y : Q) : 0 <= x -> 0 < y -> 0 <= x / y.
Proof.
  intros Hx Hy. apply Qle_shift_div_l; [assumption|]. Lqa.lra.
Qed.

Lemma recall_value (y_true y_pred prod : Numpy.ndarray) :
  Numpy.multiply y_true y_pred = Ok prod ->
  recall y_true y_pred = Ok (positives prod / (positives y_true + epsilon)).
Proof.
  intros Hm. unfold recall. rewrite Hm. simpl.
  apply divide_pos, denominator_pos.
Qed.

Lemma precision_value (y_true y_pred prod : Numpy.ndarray) :
  Numpy.multiply y_true y_pred = Ok prod ->
  precision y_true y_pred = Ok (positives prod / (positives y_pred + epsilon)).
Proof.
  intros Hm. unfold precision. rewrite Hm. simpl.
  apply divide_pos, denominator_pos.
Qed.

Lemma ratio_nonneg (a b : Numpy.ndarray) :
  0 <= positives a / (positives b + epsilon).
Proof.
  apply divide_nonneg; [apply positives_nonneg | apply denominator_pos].
Qed.

Lemma f1_denominator_pos (a b c : Numpy.ndarray) :
  0 < positives a / (positives c + epsilon)
      + positives a / (positives b + epsilon) + epsilon.
Proof.
  pose proof (ratio_nonneg a c). pose proof (ratio_nonneg a b).
  unfold epsilon in *. Lqa.lra.
Qed.

Lemma f1_score_value (y_true y_pred prod : Numpy.ndarray) :
  Numpy.multiply y_true y_pred = Ok prod ->
  let r := positives prod / (positives y_true + epsilon) in
  let p := positives prod / (positives y_pred + epsilon) in
  f1_score y_true y_pred = Ok (2 * ((p * r) / (p + r + epsilon))).
Proof.
  intros Hm r p. unfold f1_score.
  rewrite (recall_value _ _ _ Hm), (precision_value _ _ _ Hm). simpl.
  fold r p. rewrite divide_pos; [reflexivity|].
  apply f1_denominator_pos.
Qed.

Lemma result_multiply_cases (y_true y_pred : Numpy.ndarray) :
  (exists prod, Numpy.multiply y_true y_pred = Ok prod) \/
  Numpy.multiply y_true y_pred = Raise ValueError.
Proof.
  unfold Numpy.multiply, Numpy.broadcast.
  destruct (Nat.eqb _ _); [left; eauto|].
  destruct y_true as [|x [|x' a]]; destruct y_pred as [|y [|y' b]];
    (right; reflexivity) || (left; eauto).
Qed.

(** C4: whenever the elementwise product of [y_true] and [y_pred] is
    defined, [recall] returns sum(round(clip(y_true * y_pred, 0, 1))) divided
    by sum(round(clip(y_true, 0, 1))) + 1e-7, [precision] returns the same
    numerator divided by sum(round(clip(y_pred, 0, 1))) + 1e-7, and
    [f1_score] returns 2 * (precision * recall) / (precision + recall + 1e-7)
    for the values [recall] and [precision] return. *)
Theorem metrics_formulas (y_true y_pred prod : Numpy.ndarray) :
  Numpy.multiply y_true y_pred = Ok prod ->
  let true_positives := Numpy.sum (Numpy.round (Numpy.clip prod 0 1)) in
  exists r p f : Q,
    recall y_true y_pred = Ok r /\
    r = true_positives
        / (Numpy.sum (Numpy.round (Numpy.clip y_true 0 1)) + (1 # 10000000)) /\
    precision y_true y_pred = Ok p /\
    p = true_positives
        / (Numpy.sum (Numpy.round (Numpy.clip y_pred 0 1)) + (1 # 10000000)) /\
    f1_score y_true y_pred = Ok f /\
    f == 2 * (p * r) / (p + r + (1 # 10000000)).
Proof.
  intros Hm tp.
  set (r := positives prod / (positives y_true + epsilon)).
  set (p := positives prod / (positives y_pred + epsilon)).
  exists r, p, (2 * ((p * r) / (p + r + epsilon))).
  split; [apply recall_value, Hm|].
  split; [reflexivity|].
  split; [apply precision_value, Hm|].
  split; [reflexivity|].
  split; [apply f1_score_value, Hm|].
  fold epsilon. field.
  pose proof (f1_denominator_pos prod y_pred y_true). fold r p in H.
  Lqa.lra.
Qed.

Lemma metrics_formulas_witness :
  exists r p f : Q,
    recall [1; 0; 1; 1] [9 # 10; 2 # 10; 4 # 10; 8 # 10] = Ok r /\
    precision [1; 0; 1; 1] [9 # 10; 2 # 10; 4 # 10; 8 # 10] = Ok p /\
    f1_score [1; 0; 1; 1] [9 # 10; 2 # 10; 4 # 10; 8 # 10] = Ok f /\
    r == 20000000 # 30000001 /\ p == 20000000 # 20000001.
Proof.
  destruct (metrics_formulas [1; 0; 1; 1] [9 # 10; 2 # 10; 4 # 10; 8 # 10]
              [9 # 10; 0 # 10; 4 # 10; 8 # 10] eq_refl)
    as (r & p & f & Hr & Er & Hp & Ep & Hf & _).
  exists r, p, f. repeat split; try assumption.
  - rewrite Er. vm_compute. reflexivity.
  - rewrite Ep. vm_compute. reflexivity.
Defined.

(** C5: for all inputs, all-zero arrays included, every denominator of
    [recall], [precision] and [f1_score] is a non-negative count plus 1e-7
    and so strictly positive; none of the three functions divides by zero,
    and each returns a value exactly when the elementwise product of its
    arguments is defined. *)
Theorem metrics_no_zero_division (y_true y_pred : Numpy.ndarray) :
  (0 <= Numpy.sum (Numpy.round (Numpy.clip y_true 0 1)) /\
   0 < Numpy.sum (Numpy.round (Numpy.clip y_true 0 1)) + (1 # 10000000)) /\
  (0 <= Numpy.sum (Numpy.round (Numpy.clip y_pred 0 1)) /\
   0 < Numpy.sum (Numpy.round (Numpy.clip y_pred 0 1)) + (1 # 10000000)) /\
  match recall y_true y_pred, precision y_true y_pred with
  | Ok r, Ok p => 0 <= r /\ 0 <= p /\ 0 < p + r + (1 # 10000000)
  | _, _ => True
  end /\
  recall y_true y_pred <> Raise ZeroDivisionError /\
  precision y_true y_pred <> Raise ZeroDivisionError /\
  f1_score y_true y_pred <> Raise ZeroDivisionError /\
  is_ok (recall y_true y_pred) = is_ok (Numpy.multiply y_true y_pred) /\
  is_ok (precision y_true y_pred) = is_ok (Numpy.multiply y_true y_pred) /\
  is_ok (f1_score y_true y_pred) = is_ok (Numpy.multiply y_true y_pred).
Proof.
  fold epsilon. fold (positives y_true). fold (positives y_pred).
  split; [split; [apply positives_nonneg | apply denominator_pos]|].
  split; [split; [apply positives_nonneg | apply denominator_pos]|].
  destruct (result_multiply_cases y_true y_pred) as [[prod Hm] | Hm].
  - rewrite (recall_value _ _ _ Hm), (precision_value _ _ _ Hm),
      (f1_score_value _ _ _ Hm), Hm. simpl.
    repeat split; try discriminate; try apply ratio_nonneg.
    apply f1_denominator_pos.
  - unfold f1_score, recall, precision. rewrite Hm. simpl.
    repeat split; discriminate.
Qed.

(** With no possible and no predicted positives the three metrics are 0. *)
Example metrics_all_zero :
  recall [0; 0; 0] [0; 0; 0] = Ok (0 / (0 + epsilon)) /\
  precision [0; 0; 0] [0; 0; 0] = Ok (0 / (0 + epsilon)) /\
  exists f, f1_score [0; 0; 0] [0; 0; 0] = Ok f /\ f == 0.
Proof.
  repeat split. eexists. split; [vm_compute; reflexivity | reflexivity].
Qed.

(** ** Further properties of the metric functions *)

Lemma Qfloor_unit (y : Q) : 0 <= y -> y < 1 -> Qfloor y = 0%Z.
Proof.
  intros H0 H1.
  assert (Hlo : (0 <= Qfloor y)%Z).
  { change 0%Z with (Qfloor 0). now apply Qfloor_resp_le. }
  assert (Hhi : (Qfloor y < 1)%Z).
  { rewrite Zlt_Qlt. apply Qle_lt_trans with y; [apply Qfloor_le | exact H1]. }
  lia.
Qed.

Lemma Qfloor_one (y : Q) : y == 1 -> Qfloor y = 1%Z.
Proof. intros H. rewrite H. reflexivity. Qed.

(** [round(clip(x, 0, 1))] is 1 for x above one half and 0 otherwise: one
    half itself is rounded to the even neighbour 0. *)
Lemma round_clip_threshold (x : Q) :
  Numpy.round_half_even (Qmin 1 (Qmax x 0))
  = if Qle_bool x (1 # 2) then 0 else 1.
Proof.
  set (y := Qmin 1 (Qmax x 0)).
  assert (Hy0 : 0 <= y) by (apply Q.min_glb; [discriminate | apply Q.le_max_r]).
  assert (Hy1 : y <= 1) by apply Q.le_min_l.
  destruct (Qle_bool x (1 # 2)) eqn:Ex.
  - apply Qle_bool_iff in Ex.
    assert (Hy : y <= 1 # 2).
    { unfold y. apply Qle_trans with (Qmax x 0); [apply Q.le_min_r|].
      apply Q.max_lub; [exact Ex | discriminate]. }
    unfold Numpy.round_half_even. rewrite (Qfloor_unit y Hy0) by Lqa.lra.
    destruct (Qcompare_spec (y - inject_Z 0) (1 # 2)) as [H|H|H];
      try reflexivity.
    unfold inject_Z in H. Lqa.lra.
  - assert (Hx : 1 # 2 < x).
    { apply Qnot_le_lt. intros H. apply Qle_bool_iff in H. congruence. }
    assert (Hy : 1 # 2 < y).
    { unfold y. apply Q.min_glb_lt; [reflexivity|].
      apply Qlt_le_trans with x; [exact Hx | apply Q.le_max_l]. }
    unfold Numpy.round_half_even.
    destruct (Qlt_le_dec y 1) as [Hlt|Hge].
    + rewrite (Qfloor_unit y Hy0 Hlt).
      destruct (Qcompare_spec (y - inject_Z 0) (1 # 2)) as [H|H|H];
        try reflexivity; unfold inject_Z in H; Lqa.lra.
    + rewrite (Qfloor_one y) by Lqa.lra.
      destruct (Qcompare_spec (y - inject_Z 1) (1 # 2)) as [H|H|H];
        try reflexivity; unfold inject_Z in H; Lqa.lra.
Qed.

(** The elements of [a] that count as positive. *)
Definition above_half (a : Numpy.ndarray) : list Q :=
  filter (fun x => negb (Qle_bool x (1 # 2))) a.

Lemma positives_count (a : Numpy.ndarray) :
  positives a == inject_Z (Z.of_nat (List.length (above_half a))).
Proof.
  unfold positives, Numpy.round, Numpy.clip, Numpy.sum, above_half.
  induction a as [|x a IH]; [reflexivity|].
  cbn [map fold_right filter]. rewrite round_clip_threshold, IH.
  destruct (Qle_bool x (1 # 2)); cbn [negb List.length].
  - Lqa.lra.
  - rewrite Nat2Z.inj_succ, <- Z.add_1_l, inject_Z_plus. reflexivity.
Qed.

(** X1: the count that [recall] and [precision] take of an array, the sum
    of round(clip(a, 0, 1)), is the number of elements of [a] strictly
    above 0.5; an element equal to 0.5 is not counted. *)
Theorem positives_is_count_above_half (a : Numpy.ndarray) :
  Numpy.sum (Numpy.round (Numpy.clip a 0 1))
  == inject_Z (Z.of_nat (List.length (filter (fun x => negb (Qle_bool x (1 # 2))) a)))
  /\ Numpy.sum (Numpy.round (Numpy.clip ((1 # 2) :: a) 0 1))
     == Numpy.sum (Numpy.round (Numpy.clip a 0 1)).
Proof.
  split; [apply positives_count|].
  fold (positives ((1 # 2) :: a)) (positives a).
  rewrite !positives_count. reflexivity.
Qed.

Lemma Qmult_comm_eq (x y : Q) : Qmult x y = Qmult y x.
Proof.
  unfold Qmult. now rewrite Z.mul_comm, Pos.mul_comm.
Qed.

Lemma Qplus_comm_eq (x y : Q) : Qplus x y = Qplus y x.
Proof.
  unfold Qplus. now rewrite Z.add_comm, Pos.mul_comm.
Qed.

Lemma zip_with_mult_comm (a b : Numpy.ndarray) :
  Numpy.zip_with Qmult a b = Numpy.zip_with Qmult b a.
Proof.
  revert b. induction a as [|x a IH]; intros [|y b]; simpl; try reflexivity.
  now rewrite Qmult_comm_eq, IH.
Qed.

Lemma multiply_comm (a b : Numpy.ndarray) :
  Numpy.multiply a b = Numpy.multiply b a.
Proof.
  unfold Numpy.multiply, Numpy.broadcast.
  rewrite (Nat.eqb_sym (List.length b) (List.length a)).
  destruct (Nat.eqb (List.length a) (List.length b)) eqn:E.
  - now rewrite zip_with_mult_comm.
  - destruct a as [|x [|x' a]]; destruct b as [|y [|y' b]];
      try reflexivity; try discriminate E;
      f_equal; apply map_ext; intros; apply Qmult_comm_eq.
Qed.

(** X2: precision is recall with the arguments exchanged. *)
Theorem precision_is_swapped_recall (y_true y_pred : Numpy.ndarray) :
  precision y_true y_pred = recall y_pred y_true.
Proof.
  unfold precision, recall. now rewrite multiply_comm.
Qed.

Lemma precision_swap (a b : Numpy.ndarray) : precision a b = recall b a.
Proof. unfold precision, recall. now rewrite multiply_comm. Qed.

(** X3: the F1 score does not depend on which array is taken as the truth
    and which as the prediction. *)
Theorem f1_score_symmetric (y_true y_pred : Numpy.ndarray) :
  f1_score y_true y_pred = f1_score y_pred y_true.
Proof.
  unfold f1_score. rewrite !precision_swap.
  destruct (result_multiply_cases y_true y_pred) as [[prod Hm] | Hm].
  - rewrite (recall_value _ _ _ Hm).
    rewrite multiply_comm in Hm. rewrite (recall_value _ _ _ Hm).
    cbn [Py.bind].
    now rewrite Qmult_comm_eq,
      (Qplus_comm_eq (positives prod / (positives y_true + epsilon))).
  - assert (H1 : recall y_true y_pred = Raise ValueError)
      by (unfold recall; now rewrite Hm).
    rewrite multiply_comm in Hm.
    assert (H2 : recall y_pred y_true = Raise ValueError)
      by (unfold recall; now rewrite Hm).
    now rewrite H1, H2.
Qed.

(** X5: whenever the elementwise product is defined, the F1 score is not
    negative, and it is 0 exactly when there is no true positive, that is
    when no element of y_true * y_pred exceeds 0.5. *)
Theorem f1_score_zero_iff (y_true y_pred prod : Numpy.ndarray) :
  Numpy.multiply y_true y_pred = Ok prod ->
  exists f,
    f1_score y_true y_pred = Ok f /\
    0 <= f /\
    (f == 0 <->
     filter (fun x => negb (Qle_bool x (1 # 2))) prod = []).
Proof.
  intros Hm. eexists. split; [apply f1_score_value, Hm|].
  fold (above_half prod).
  set (t := positives prod).
  set (dt := positives y_true + epsilon). set (dp := positives y_pred + epsilon).
  assert (Ht : 0 <= t) by apply positives_nonneg.
  assert (Hdt : 0 < dt) by apply denominator_pos.
  assert (Hdp : 0 < dp) by apply denominator_pos.
  assert (Hcount : t == 0 <-> above_half prod = []).
  { unfold t. rewrite positives_count. split.
    - intros H. destruct (above_half prod); [reflexivity|].
      exfalso. simpl List.length in H. rewrite Nat2Z.inj_succ in H.
      unfold Qeq, inject_Z in H. cbn [Qnum Qden] in H. lia.
    - intros ->. reflexivity. }
  assert (Hr : 0 <= t / dt) by (apply divide_nonneg; assumption).
  assert (Hp : 0 <= t / dp) by (apply divide_nonneg; assumption).
  assert (Hd : 0 < t / dp + t / dt + epsilon) by (unfold epsilon; Lqa.lra).
  assert (Hq : 0 <= (t / dp * (t / dt)) / (t / dp + t / dt + epsilon)).
  { apply divide_nonneg; [Lqa.nra | exact Hd]. }
  split; [Lqa.lra|].
  rewrite <- Hcount. split.
  - intros Hf. destruct (Qlt_le_dec 0 t) as [Hpos|Hle]; [|Lqa.lra].
    exfalso.
    assert (Hr' : 0 < t / dt) by (apply Qlt_shift_div_l; [assumption | Lqa.lra]).
    assert (Hp' : 0 < t / dp) by (apply Qlt_shift_div_l; [assumption | Lqa.lra]).
    assert (Hq' : 0 < (t / dp * (t / dt)) / (t / dp + t / dt + epsilon)).
    { apply Qlt_shift_div_l; [exact Hd | Lqa.nra]. }
    Lqa.lra.
  - intros H0. unfold Qdiv. rewrite H0. ring.
Qed.

Lemma f1_score_zero_iff_witness :
  exists f, f1_score [1; 1] [3 # 10; 5 # 10] = Ok f /\ f == 0.
Proof.
  destruct (f1_score_zero_iff [1; 1] [3 # 10; 5 # 10] [3 # 10; 5 # 10] eq_refl)
    as (f & Hf & _ & Hz).
  exists f. split; [exact Hf | apply Hz; reflexivity].
Defined.

End ClassificationMetrics.

(* ===================================================================== *)
(** * [tfn/tools/callbacks.py]: WriteCartesians *)
(* ===================================================================== *)

Module WriteCartesians.

Local Open Scope string_scope.
Local Open Scope Z_scope.

(** A [pathlib.Path], by its text; [p / name] appends a component. *)
Definition Path : Type := string.

Definition joinpath (p : Path) (name : string) : Path := p ++ "/" ++ name.

Notation "p // name" := (joinpath p name) (at level 40, left associativity).

(** The text of an integer in an f-string. *)
Definition str_of_int (z : Z) : string := NilZero.string_of_int (Z.to_int z).

(** [l[:stop]] *)
Definition slice_to {A : Type} (stop : Z) (l : list A) : list A :=
  if 0 <=? stop then firstn (Z.to_nat stop) l
  else firstn (List.length l - Z.to_nat (- stop)) l.

(** [zip] of five sequences stops with the shortest. *)
Fixpoint zip5 {A : Type} (a b c d e : list A) : list (A * A * A * A * A) :=
  match a, b, c, d, e with
  | x :: a', y :: b', z :: c', u :: d', v :: e' =>
      (x, y, z, u, v) :: zip5 a' b' c' d' e'
  | _, _, _, _, _ => []
  end.

Fixpoint enumerate_from {A : Type} (i : nat) (l : list A) : list (nat * A) :=
  match l with
  | [] => []
  | x :: l' => (i, x) :: enumerate_from (S i) l'
  end.

Definition enumerate {A : Type} (l : list A) : list (nat * A) :=
  enumerate_from 0 l.

(** What the callback takes from outside this repository.

    numpy: arrays and floats, with the operations the callback uses;
    [rows a] are the sub-arrays that iterating over [a] yields, [format x]
    is the text of the float [x] in an f-string.  Arrays of one data set
    have matching shapes, so the arithmetic does not raise.

    Keras: [self.model.predict] of the model the callback is attached to,
    and [predict] of the model that [get_vectors] builds from the layers
    "averaged_midpoint" and "ts_vectors". *)
Class Environment : Type := {
  ndarray : Type;
  scalar : Type;
  rows : ndarray -> list ndarray;
  np_add : ndarray -> ndarray -> ndarray;
  np_subtract : ndarray -> ndarray -> ndarray;
  np_divide_int : ndarray -> Z -> ndarray;
  np_abs : ndarray -> ndarray;
  np_mean : ndarray -> scalar;
  np_max : ndarray -> scalar;
  np_min : ndarray -> scalar;
  np_expand_dims : ndarray -> Z -> ndarray;
  np_squeeze : ndarray -> Z -> ndarray;
  format : scalar -> string;
  model_predict : list ndarray -> ndarray;
  vectors_model_predict : list ndarray -> ndarray * ndarray
}.

Section Callback.

Context {env : Environment}.

(** What the callback does to the outside world. *)
Inductive event : Type :=
| MakeDirs (path : Path)
    (** [os.makedirs(path, exist_ok=True)] *)
| SaveTxt (path : Path) (a : ndarray)
    (** [np.savetxt(path, a)] *)
| NdarraysToXyz (coordinates atomic_numbers : ndarray) (path : Path)
    (message : string)
    (** [ndarrays_to_xyz(coordinates, atomic_numbers, path, message)] of
        [tfn.tools.converters], which is not among the sources: it writes
        the structure as the .xyz file [path]. *)
| SummaryScalar (name : string) (value : scalar) (step : Z)
    (** [tf.summary.scalar(name, value, step)] *)
| Print (text : string).

(** A data set [[z, r, p], [ts]]. *)
Definition dataset : Type := (ndarray * ndarray * ndarray) * ndarray.

Record WriteCartesians : Type := mkWriteCartesians {
  path : Path;
  validation : option dataset;
  test : option dataset;
  max_structures : Z;
  write_rate : Z
}.

Definition get_vectors (inputs : list ndarray) : ndarray * ndarray :=
  let (midpoint, vectors) :=
    vectors_model_predict (map (fun a => np_expand_dims a 0) inputs) in
  (np_squeeze midpoint 0, np_squeeze vectors 0).

(** The tuples the generator yields, in order. *)
Definition _unwrap_data_lazily (self : WriteCartesians) (data : dataset)
  : list (nat * (ndarray * ndarray * ndarray * ndarray * ndarray)) :=
  let '((atomic_nums, reactants, products), true_transition_states) := data in
  let predicted_transition_states :=
    model_predict [atomic_nums; reactants; products] in
  enumerate
    (zip5 (slice_to (max_structures self) (rows atomic_nums))
          (slice_to (max_structures self) (rows reactants))
          (slice_to (max_structures self) (rows products))
          (slice_to (max_structures self) (rows true_transition_states))
          (slice_to (max_structures self) (rows predicted_transition_states))).

Definition mae (x y : ndarray) : scalar := np_mean (np_abs (np_subtract x y)).

(** One turn of the loop of [write_cartesians]. *)
Definition write_structure (path : Path)
    (item : nat * (ndarray * ndarray * ndarray * ndarray * ndarray))
  : list event :=
  let '(i, (z, r, p, ts, pred)) := item in
  let i := str_of_int (Z.of_nat i) in
  let (m, vectors) := get_vectors [z; r; p] in
  let vector_path := path // "vectors" in
  let pred_message :=
    "mae: " ++ format (mae pred ts) ++ "  "
    ++ "-- largest vector component: " ++ format (np_max vectors) ++ " "
    ++ "-- smallest vector component " ++ format (np_min vectors) in
  [ MakeDirs vector_path;
    SaveTxt (vector_path // (i ++ "_vectors.txt")) vectors;
    NdarraysToXyz ts z (path // ("true/" ++ i ++ "_true.xyz"))
      (format (mae ts ts));
    NdarraysToXyz pred z (path // ("predicted/" ++ i ++ "_pred.xyz"))
      pred_message;
    NdarraysToXyz m z (path // ("midpoints/" ++ i ++ "_midpoint.xyz"))
      (format (mae m ts));
    NdarraysToXyz r z (path // ("reactants/" ++ i ++ "_reactant.xyz"))
      (format (mae r ts));
    NdarraysToXyz p z (path // ("products/" ++ i ++ "_product.xyz"))
      (format (mae p ts)) ].

Definition write_cartesians (self : WriteCartesians) (data : dataset)
    (path : Path) : list event :=
  flat_map (write_structure path) (_unwrap_data_lazily self data).

(** The events of a call and how it ends. *)
Definition on_epoch_end (self : WriteCartesians) (epoch : Z)
  : list event * result unit :=
  match validation self with
  | None => ([], Ok tt)
  | Some data =>
      if write_rate self =? 0 then ([], Raise ZeroDivisionError)
      else if epoch mod write_rate self =? 0 then
        let '((z, r, p), ts) := data in
        let midpoint_loss := mae (np_divide_int (np_add r p) 2) ts in
        (SummaryScalar "val_midpoint_loss" midpoint_loss epoch
           :: write_cartesians self data
                (path self // ("epoch_" ++ str_of_int epoch)),
         Ok tt)
      else ([], Ok tt)
  end.

Definition on_train_end (self : WriteCartesians) : list event * result unit :=
  match test self with
  | None => ([], Ok tt)
  | Some test_data =>
      match validation self with
      | None => ([], Raise TypeError)
      | Some ((z, r, p), ts) =>
          let midpoint_loss := mae (np_divide_int (np_add r p) 2) ts in
          (Print ("midpoint test loss: " ++ format midpoint_loss)
             :: write_cartesians self test_data (path self // "test"),
           Ok tt)
      end
  end.

(** The files a sequence of events writes. *)
Definition written_files (events : list event) : list Path :=
  flat_map (fun e => match e with
                     | SaveTxt p _ => [p]
                     | NdarraysToXyz _ _ p _ => [p]
                     | _ => []
                     end) events.

(** The six files of structure [i] under [path]. *)
Definition structure_files (path : Path) (i : nat) : list Path :=
  let i := str_of_int (Z.of_nat i) in
  [ path // "vectors" // (i ++ "_vectors.txt");
    path // ("true/" ++ i ++ "_true.xyz");
    path // ("predicted/" ++ i ++ "_pred.xyz");
    path // ("midpoints/" ++ i ++ "_midpoint.xyz");
    path // ("reactants/" ++ i ++ "_reactant.xyz");
    path // ("products/" ++ i ++ "_product.xyz") ].

(** ** Properties *)



Lemma enumerate_from_length {A : Type} (i : nat) (l : list A) :
  List.length (enumerate_from i l) = List.length l.
Proof.
  revert i. induction l as [|x l IH]; intros i; simpl; [reflexivity|].
  now rewrite IH.
Qed.



Lemma written_files_app (e1 e2 : list event) :
  written_files (e1 ++ e2)%list = (written_files e1 ++ written_files e2)%list.
Proof. apply flat_map_app. Qed.

Lemma write_structure_files (path : Path) (i : nat)
    (x : ndarray * ndarray * ndarray * ndarray * ndarray) :
  written_files (write_structure path (i, x)) = structure_files path i.
Proof.
  destruct x as [[[[z r] p] ts] pred]. unfold write_structure.
  destruct (get_vectors [z; r; p]) as [m vectors]. reflexivity.
Qed.

Lemma write_enumerated_files (path : Path) (i : nat)
    (l : list (ndarray * ndarray * ndarray * ndarray * ndarray)) :
  written_files (flat_map (write_structure path) (enumerate_from i l))
  = flat_map (structure_files path) (seq i (List.length l)).
Proof.
  revert i. induction l as [|x l IH]; intros i; [reflexivity|].
  cbn [enumerate_from flat_map List.length seq].
  now rewrite written_files_app, write_structure_files, IH.
Qed.



Lemma write_cartesians_files (self : WriteCartesians) (data : dataset)
    (base : Path) :
  written_files (write_cartesians self data base)
  = flat_map (structure_files base)
      (seq 0 (List.length (_unwrap_data_lazily self data))).
Proof.
  unfold write_cartesians. destruct data as [[[zs rs] ps] ts].
  unfold _unwrap_data_lazily, enumerate.
  now rewrite write_enumerated_files, enumerate_from_length.
Qed.


(** C9: when [test] is not [None], [on_train_end] unpacks [validation]:
    with [validation] [None] it raises before anything is written, and
    otherwise the loss it prints as the midpoint test loss is the mean
    absolute error between (r + p) / 2 and ts of the validation data,
    whatever the test data are. *)
Theorem on_train_end_uses_validation (self : WriteCartesians)
    (test_data : dataset) :
  test self = Some test_data ->
  (validation self = None -> on_train_end self = ([], Raise TypeError)) /\
  (forall z r p ts,
     validation self = Some ((z, r, p), ts) ->
     on_train_end self =
     (Print ("midpoint test loss: "
             ++ format (np_mean (np_abs (np_subtract
                                           (np_divide_int (np_add r p) 2) ts))))
        :: write_cartesians self test_data (path self // "test"),
      Ok tt)) /\
  (forall other : WriteCartesians,
     validation other = validation self ->
     test other <> None ->
     hd_error (fst (on_train_end other)) = hd_error (fst (on_train_end self))).
Proof.
  intros Ht. unfold on_train_end. rewrite Ht.
  split; [now intros ->|]. split.
  - now intros z r p ts ->.
  - intros other Hv Hto. rewrite Hv.
    destruct (test other) as [other_data|]; [|congruence].
    destruct (validation self) as [[[[z r] p] ts]|]; reflexivity.
Qed.

(** ** Further properties *)

Lemma str_of_int_inj (a b : Z) : str_of_int a = str_of_int b -> a = b.
Proof.
  unfold str_of_int. intros H.
  assert (Hnn : forall z, Z.to_int z <> Decimal.Pos Decimal.Nil
                          /\ Z.to_int z <> Decimal.Neg Decimal.Nil).
  { intros [|p|p]; simpl; split; try discriminate;
      intros [= E]; now apply (DecimalPos.Unsigned.to_uint_nonnil p). }
  apply DecimalZ.to_int_inj.
  destruct (Hnn a) as [Ha1 Ha2]. destruct (Hnn b) as [Hb1 Hb2].
  pose proof (NilZero.isi _ Ha1 Ha2) as Ia.
  pose proof (NilZero.isi _ Hb1 Hb2) as Ib.
  rewrite H in Ia. congruence.
Qed.

Lemma append_assoc (a b c : string) : (a ++ b) ++ c = a ++ (b ++ c).
Proof. induction a as [|x a IH]; simpl; [reflexivity | now rewrite IH]. Qed.

Lemma append_inv_head (s a b : string) : s ++ a = s ++ b -> a = b.
Proof. induction s as [|x s IH]; simpl; [auto | intros [= H]; auto]. Qed.

Lemma length_append (a b : string) :
  String.length (a ++ b) = (String.length a + String.length b)%nat.
Proof. induction a as [|x a IH]; simpl; [reflexivity | now rewrite IH]. Qed.

Lemma append_inv_tail (a b t : string) : a ++ t = b ++ t -> a = b.
Proof.
  intros H.
  assert (Hlen : String.length a = String.length b).
  { apply (f_equal String.length) in H. rewrite !length_append in H. lia. }
  revert b H Hlen. induction a as [|x a IH]; intros [|y b] H Hlen;
    simpl in *; try discriminate; [reflexivity|].
  injection H as -> H. f_equal. apply IH; [exact H | lia].
Qed.

(** The length of [l[:stop]] for a sequence of length [n]. *)
Definition slice_length (stop : Z) (n : nat) : nat :=
  if 0 <=? stop then Nat.min (Z.to_nat stop) n
  else (n - Z.to_nat (- stop))%nat.

Lemma slice_to_length {A : Type} (stop : Z) (l : list A) :
  List.length (slice_to stop l) = slice_length stop (List.length l).
Proof.
  unfold slice_to, slice_length. destruct (0 <=? stop);
    rewrite length_firstn; lia.
Qed.

Lemma slice_length_min (stop : Z) (a b : nat) :
  Nat.min (slice_length stop a) (slice_length stop b)
  = slice_length stop (Nat.min a b).
Proof. unfold slice_length. destruct (0 <=? stop); lia. Qed.

Lemma zip5_length {A : Type} (a b c d e : list A) :
  List.length (zip5 a b c d e)
  = Nat.min (List.length a)
      (Nat.min (List.length b)
         (Nat.min (List.length c)
            (Nat.min (List.length d) (List.length e)))).
Proof.
  revert b c d e. induction a as [|x a IH]; intros [|y b] [|z c] [|u d] [|v e];
    simpl; try lia.
  rewrite (IH b c d e). lia.
Qed.

Lemma write_structures_length (base : Path)
    (l : list (nat * (ndarray * ndarray * ndarray * ndarray * ndarray))) :
  List.length (flat_map (write_structure base) l) = (7 * List.length l)%nat.
Proof.
  induction l as [|[i x] l IH]; [reflexivity|].
  cbn [flat_map]. rewrite length_app, IH.
  destruct x as [[[[z r] p] t] pred]. unfold write_structure.
  destruct (get_vectors [z; r; p]). cbn [List.length]. lia.
Qed.

(** X12: the number of structures [write_cartesians] goes through is the
    length of the slice [[:max_structures]] of the shortest of the five
    arrays that are zipped (atomic numbers, reactants, products, true and
    predicted transition states): min(max_structures, n) for n rows and
    [max_structures >= 0], and n - |max_structures| (or 0) for a negative
    [max_structures].  With [max_structures = 0] nothing is written. *)
Theorem unwrap_data_count (self : WriteCartesians) (data : dataset)
    (base : Path) :
  let '((atomic_nums, reactants, products), true_transition_states) := data in
  let n :=
    Nat.min (List.length (rows atomic_nums))
      (Nat.min (List.length (rows reactants))
         (Nat.min (List.length (rows products))
            (Nat.min (List.length (rows true_transition_states))
               (List.length
                  (rows (model_predict [atomic_nums; reactants; products])))))) in
  List.length (_unwrap_data_lazily self data)
  = (if 0 <=? max_structures self
     then Nat.min (Z.to_nat (max_structures self)) n
     else (n - Z.to_nat (- max_structures self))%nat)
  /\ List.length (write_cartesians self data base)
     = (7 * List.length (_unwrap_data_lazily self data))%nat
  /\ (max_structures self = 0 -> write_cartesians self data base = []).
Proof.
  destruct data as [[[zs rs] ps] ts]. intros n.
  assert (Hlen : List.length (_unwrap_data_lazily self ((zs, rs, ps), ts))
                 = slice_length (max_structures self) n).
  { unfold _unwrap_data_lazily, enumerate.
    rewrite enumerate_from_length, zip5_length.
    rewrite (slice_to_length (max_structures self) (rows zs)).
    rewrite (slice_to_length (max_structures self) (rows rs)).
    rewrite (slice_to_length (max_structures self) (rows ps)).
    rewrite (slice_to_length (max_structures self) (rows ts)).
    rewrite (slice_to_length (max_structures self)
               (rows (model_predict [zs; rs; ps]))).
    now rewrite !slice_length_min. }
  split; [exact Hlen|]. split.
  - unfold write_cartesians. apply write_structures_length.
  - intros H0. unfold write_cartesians.
    destruct (_unwrap_data_lazily self (zs, rs, ps, ts)) as [|x l] eqn:E;
      [reflexivity|].
    rewrite H0 in Hlen. cbn in Hlen. discriminate.
Qed.

Lemma structure_files_same_index (base : Path) (i j : nat) (f : Path) :
  In f (structure_files base i) -> In f (structure_files base j) -> i = j.
Proof.
  unfold structure_files, joinpath. cbn [In].
  intros Hi Hj.
  assert (Hstr : str_of_int (Z.of_nat i) = str_of_int (Z.of_nat j)).
  { repeat (destruct Hi as [Hi | Hi]); try contradiction;
      repeat (destruct Hj as [Hj | Hj]); try contradiction;
      subst f; rewrite ?append_assoc in Hj;
      apply append_inv_head in Hj; cbn in Hj; try discriminate Hj;
      injection Hj as Hj;
      repeat (match type of Hj with
              | String _ _ = String _ _ => injection Hj as Hj
              end);
      symmetry; eapply append_inv_tail; exact Hj. }
  apply str_of_int_inj in Hstr. lia.
Qed.

Lemma structure_files_NoDup (base : Path) (i : nat) :
  NoDup (structure_files base i).
Proof.
  unfold structure_files, joinpath.
  repeat constructor; cbn [In]; intros H;
    repeat (destruct H as [H | H]); try contradiction;
    rewrite ?append_assoc in H; apply append_inv_head in H; discriminate H.
Qed.

Lemma flat_map_structure_files_NoDup (base : Path) (l : list nat) :
  NoDup l -> NoDup (flat_map (structure_files base) l).
Proof.
  induction 1 as [|i l Hi Hnd IH]; [constructor|].
  cbn [flat_map]. apply NoDup_app; [apply structure_files_NoDup | exact IH |].
  intros f Hf Hin. apply in_flat_map in Hin. destruct Hin as (j & Hj & Hfj).
  rewrite (structure_files_same_index base i j f Hf Hfj) in Hi. contradiction.
Qed.

(** X13: within one call of [write_cartesians] no file is written twice:
    the files of different structures, and the six files of one structure,
    have different paths, whatever [max_structures] is. *)
Theorem write_cartesians_files_distinct (self : WriteCartesians)
    (data : dataset) (base : Path) :
  NoDup (written_files (write_cartesians self data base)).
Proof.
  rewrite write_cartesians_files.
  apply flat_map_structure_files_NoDup, seq_NoDup.
Qed.

End Callback.

(** *** An instance with uninterpreted arrays

    Arrays are expressions: a named array with a number of rows, a row of
    an array, or an operation applied to arrays.  Each numpy operation
    builds the expression that names it, so a result shows what it was
    computed from. *)

Inductive expr : Type :=
| Array (name : string) (length : nat)
| Row (a : expr) (i : nat)
| Add (a b : expr)
| Subtract (a b : expr)
| DivideInt (a : expr) (k : Z)
| Abs (a : expr)
| ExpandDims (a : expr) (axis : Z)
| Squeeze (a : expr) (axis : Z)
| Predict (inputs : list expr)
| Midpoint (inputs : list expr)
| Vectors (inputs : list expr).

Inductive scalar_expr : Type :=
| Mean (a : expr)
| Max (a : expr)
| Min (a : expr).

Definition expr_length (a : expr) : nat :=
  match a with
  | Array _ n => n
  | Predict (Array _ n :: _) => n
  | _ => 0%nat
  end.

#[local] Instance uninterpreted : Environment := {|
  ndarray := expr;
  scalar := scalar_expr;
  rows := fun a => map (Row a) (seq 0 (expr_length a));
  np_add := Add;
  np_subtract := Subtract;
  np_divide_int := DivideInt;
  np_abs := Abs;
  np_mean := Mean;
  np_max := Max;
  np_min := Min;
  np_expand_dims := ExpandDims;
  np_squeeze := Squeeze;
  format := fun x => match x with
                     | Mean _ => "mean"
                     | Max _ => "max"
                     | Min _ => "min"
                     end;
  model_predict := Predict;
  vectors_model_predict := fun inputs => (Midpoint inputs, Vectors inputs)
|}.

(** Three validation structures and four test structures. *)
Definition example_validation : dataset :=
  ((Array "z" 3, Array "r" 3, Array "p" 3), Array "ts" 3).

Definition example_test : dataset :=
  ((Array "z_test" 4, Array "r_test" 4, Array "p_test" 4), Array "ts_test" 4).

Definition example_callback : WriteCartesians :=
  {| path := "out";
     validation := Some example_validation;
     test := Some example_test;
     max_structures := 2;
     write_rate := 100 |}.


(** The same callback without validation data. *)
Definition test_only_callback : WriteCartesians :=
  {| path := "out";
     validation := None;
     test := Some example_test;
     max_structures := 2;
     write_rate := 100 |}.




Lemma on_train_end_uses_validation_witness :
  on_train_end test_only_callback = ([], Raise TypeError) /\
  hd_error (fst (on_train_end example_callback)) =
  Some (Print ("midpoint test loss: "
               ++ format (Mean (Abs (Subtract
                                       (DivideInt (Add (Array "r" 3) (Array "p" 3)) 2)
                                       (Array "ts" 3)))))).
Proof.
  destruct (on_train_end_uses_validation test_only_callback example_test eq_refl)
    as (Hnone & _).
  destruct (on_train_end_uses_validation example_callback example_test eq_refl)
    as (_ & Hsome & _).
  split; [apply Hnone; reflexivity|].
  rewrite (Hsome _ _ _ _ eq_refl). reflexivity.
Defined.

End WriteCartesians.

(* ===================================================================== *)
(** * The experiment scripts under [runs/] *)
(* ===================================================================== *)

Module Runs.

Local Open Scope string_scope.

(** The job classes of [tfn.tools.jobs] that the scripts import. *)
Inductive job_class : Type :=
| Classification
| SingleModel
| StructurePrediction
| Pipeline
| CrossValidate
| Regression.

(** A job object, as the call that constructs it: the class, the positional
    arguments, the keyword arguments other than [jobs], and the keyword
    argument [jobs] when it is given. *)
Inductive job : Type :=
| Call (cls : job_class) (args : list value) (kwargs : dict)
    (jobs : option (list job)).

(** What a script does at top level besides binding names: [j.run()]. *)
Inductive action : Type :=
| Run (j : job).

(** A script, run with [__file__] bound to its own path. *)
Definition script : Type := string -> list action.

(** The text before the last "/" of [s], if [s] has one. *)
Fixpoint before_last_slash (s : string) : option string :=
  match s with
  | EmptyString => None
  | String c s' =>
      match before_last_slash s' with
      | Some t => Some (String c t)
      | None => if Ascii.eqb c "/" then Some EmptyString else None
      end
  end.

(** [f"{Path(file).parent}"] for a normalised POSIX path [file]. *)
Definition Path_parent (file : string) : string :=
  match before_last_slash file with
  | None => "."
  | Some EmptyString => "/"
  | Some directory => directory
  end.

(** [runs/basic_classifier/0-defaults/exp_classifier_0.py] *)
Definition exp_classifier_0 : script := fun __file__ =>
  let job :=
    Call Classification []
      [ ("exp_config",
         VDict
           [ ("name", VStr "BASIC CLASSIFIER ON TS DATASET EXPERIMENT 0");
             ("notes", VStr "Using all defaults");
             ("run_config", VDict [("loss", VStr "binary_crossentropy")]);
             ("loader_config",
              VDict
                [ ("loader_type", VStr "ts_loader");
                  ("load_kwargs",
                   VDict
                     [ ("output_type", VStr "classifier");
                       ("blacklist",
                        VList [ VStr "reactant"; VStr "reactant_complex";
                                VStr "product_complex" ]) ]) ]);
             ("builder_config",
              VDict [("builder_type", VStr "classifier_builder")]) ]) ]
      None in
  [Run job].

(** [runs/cartesian_prediction/qm9/cartesians_prediction_distance_matrix_output/experiment.py] *)
Definition cartesians_prediction_distance_matrix_output : script :=
  fun __file__ =>
  let job :=
    Call StructurePrediction []
      [ ("exp_config",
         VDict
           [ ("name", VStr (Path_parent __file__));
             ("notes", VStr "");
             ("loader_config",
              VDict
                [ ("loader_type", VStr "qm9_loader");
                  ("load_kwargs",
                   VDict [ ("modify_structures", VBool true);
                           ("output_distance_matrix", VBool true) ]) ]);
             ("builder_config",
              VDict [ ("builder_type", VStr "cartesian_builder");
                      ("prediction_type", VStr "cartesians");
                      ("output_type", VStr "distance_matrix") ]) ]) ]
      None in
  [Run job].

(** [runs/final/pre_trained/tsnet-energy/experiment.py] *)
Definition tsnet_energy : script := fun __file__ =>
  let job :=
    Call Pipeline []
      [ ("exp_config",
         VDict [ ("name", VStr (Path_parent __file__)); ("seed", VInt 1) ]) ]
      (Some
         [ Call Regression []
             [ ("exp_config",
                VDict
                  [ ("name", VStr (Path_parent __file__ ++ " QM9"));
                    ("seed", VInt 1);
                    ("run_config",
                     VDict [ ("epochs", VInt 50); ("test", VBool false) ]);
                    ("loader_config",
                     VDict
                       [ ("loader_type", VStr "qm9_loader");
                         ("splitting", VStr "90:10:0");
                         ("map_points", VBool false);
                         ("load_kwargs", VDict [("custom_maxz", VInt 36)]) ]);
                    ("builder_config",
                     VDict [("builder_type", VStr "energy_builder")]) ]) ]
             None;
           Call CrossValidate []
             [ ("exp_config",
                VDict
                  [ ("name", VStr (Path_parent __file__ ++ " TS"));
                    ("seed", VInt 1);
                    ("run_config",
                     VDict [ ("epochs", VInt 1000); ("test", VBool false);
                             ("batch_size", VInt 48) ]);
                    ("loader_config",
                     VDict
                       [ ("loader_type", VStr "ts_loader");
                         ("splitting", VInt 5);
                         ("map_points", VBool false);
                         ("load_kwargs",
                          VDict [ ("remove_noise", VBool true);
                                  ("shuffle", VBool false) ]) ]);
                    ("builder_config",
                     VDict [ ("builder_type", VStr "cartesian_builder");
                             ("radial_factory", VStr "multi_dense");
                             ("prediction_type", VStr "cartesians");
                             ("output_type", VStr "cartesians") ]);
                    ("lr_config",
                     VDict [ ("min_delta", VFloat (1 # 100));
                             ("patience", VInt 30);
                             ("cooldown", VInt 20) ]) ]) ]
             None ]) in
  [Run job].

(** [runs/pipeline/sn2_to_ts/exp_sn2_ts.py] *)
Definition exp_sn2_ts : script := fun __file__ =>
  let job :=
    Call Pipeline
      [ VDict
          [ ("run_config",
             VDict
               [ ("name", VStr "tl0 - QM9 Energy to ISO17 Energy/Force predictor");
                 ("notes",
                  VStr "Not freezing layers, defaults for both models") ]);
            ("pipeline_config",
             VDict
               [ ("configs",
                  VList
                    [ VDict
                        [ ("builder_config",
                           VDict [("builder_type", VStr "force_builder")]);
                          ("loader_config",
                           VDict [("loader_type", VStr "sn2_loader")]) ];
                      VDict
                        [ ("builder_config",
                           VDict [("builder_type", VStr "ts_builder")]);
                          ("loader_config",
                           VDict [ ("loader_type", VStr "ts_loader");
                                   ("splitting", VStr "90:10") ]) ] ]) ]) ] ]
      [] None in
  [Run job].

(** [runs/ts/2-cartesian_predictor/exp_ts_2.py] *)
Definition exp_ts_2 : script := fun __file__ =>
  let job :=
    Call SingleModel []
      [ ("exp_config",
         VDict
           [ ("name", VStr "CARTESIAN TS MODEL ON TS DATASET");
             ("notes", VStr "Train on only distance matrix");
             ("run_config",
              VDict [ ("epochs", VInt 200); ("loss", VStr "mae") ]);
             ("builder_config",
              VDict [ ("builder_type", VStr "ts_builder");
                      ("num_layers", VTuple [VInt 2; VInt 2; VInt 2]);
                      ("output_distance_matrix", VBool false) ]);
             ("loader_config",
              VDict [ ("loader_type", VStr "ts_loader");
                      ("load_kwargs",
                       VDict [("output_distance_matrix", VBool false)]) ]) ]) ]
      None in
  [Run job].

(** The scripts under [runs/]. *)
Definition scripts : list script :=
  [ exp_classifier_0;
    cartesians_prediction_distance_matrix_output;
    tsnet_energy;
    exp_sn2_ts;
    exp_ts_2 ].

(** A script is literal when what it builds and does is fixed by its text,
    whatever [__file__] is. *)
Definition literal (s : script) : Prop := forall file1 file2, s file1 = s file2.

(** A script performs one action, [run()] on the job it has built. *)
Definition runs_one_job (s : script) : Prop :=
  forall file, exists j, s file = [Run j].

(** The value of every "name" entry of a configuration dictionary blanked. *)
Definition blank_name (v : value) : value :=
  match v with
  | VDict d =>
      VDict (map (fun kv => if String.eqb (fst kv) "name"
                            then (fst kv, VStr "") else kv) d)
  | _ => v
  end.

Fixpoint blank_names (j : job) : job :=
  match j with
  | Call cls args kwargs jobs =>
      Call cls (map blank_name args)
        (map (fun kv => (fst kv, blank_name (snd kv))) kwargs)
        (match jobs with
         | Some l => Some (map blank_names l)
         | None => None
         end)
  end.

Definition blank_action (a : action) : action :=
  match a with
  | Run j => Run (blank_names j)
  end.

Definition is_dictionary (v : value) : bool :=
  match v with
  | VDict _ => true
  | _ => false
  end.

(** The call that builds [j] passes dictionaries and nothing else: every
    positional and keyword argument is a dictionary and there is no
    argument [jobs]. *)
Definition passes_only_dictionaries (j : job) : bool :=
  match j with
  | Call _ args kwargs jobs =>
      forallb is_dictionary args
      && forallb (fun kv => is_dictionary (snd kv)) kwargs
      && match jobs with
         | None => true
         | Some _ => false
         end
  end.

(** The call that builds [j] passes dictionaries and, under [jobs], a list
    of jobs that are built the same way. *)
Fixpoint passes_dictionaries_and_jobs (j : job) : bool :=
  match j with
  | Call _ args kwargs jobs =>
      forallb is_dictionary args
      && forallb (fun kv => is_dictionary (snd kv)) kwargs
      && match jobs with
         | None => true
         | Some l => forallb passes_dictionaries_and_jobs l
         end
  end.

(** The claim as it is stated, of one script: what it builds is fixed by
    literals, it performs one action, [run()] on the job it has built, and
    that job is built by passing dictionaries only. *)
Definition declarative_as_stated (s : script) : Prop :=
  literal s /\
  forall file, exists j, s file = [Run j] /\ passes_only_dictionaries j = true.

(** ** Properties *)

Example Path_parent_examples :
  Path_parent "/home/user/runs/final/pre_trained/tsnet-energy/experiment.py"
  = "/home/user/runs/final/pre_trained/tsnet-energy" /\
  Path_parent "experiment.py" = "." /\
  Path_parent "/experiment.py" = "/".
Proof. repeat split. Qed.

(** C8 as stated fails on [tsnet-energy/experiment.py], twice over.  It
    names its jobs after [Path(__file__).parent], so what it builds is not
    fixed by literals: run from two directories it builds two different
    jobs.  And it builds its Pipeline by passing, besides a dictionary, the
    list [jobs] of two job objects, which is not a dictionary. *)
Lemma scripts_not_all_literal :
  tsnet_energy "/a/experiment.py" <> tsnet_energy "/b/experiment.py" /\
  (exists j, tsnet_energy "/a/experiment.py" = [Run j] /\
             passes_only_dictionaries j = false) /\
  ~ literal tsnet_energy /\
  ~ (forall file, exists j, tsnet_energy file = [Run j] /\
                            passes_only_dictionaries j = true) /\
  ~ Forall declarative_as_stated scripts /\
  ~ Forall (fun s => literal s /\ runs_one_job s) scripts.
Proof.
  assert (Hlit : ~ literal tsnet_energy).
  { intros H. specialize (H "/a/experiment.py" "/b/experiment.py").
    discriminate H. }
  split; [discriminate|].
  split; [eexists; split; reflexivity|].
  split; [exact Hlit|].
  split.
  { intros H. destruct (H "/a/experiment.py") as (j & Hj & Hd).
    injection Hj as <-. discriminate Hd. }
  split.
  - intros H. rewrite Forall_forall in H.
    destruct (H tsnet_energy) as [H' _]; [simpl; tauto | exact (Hlit H')].
  - intros H. rewrite Forall_forall in H.
    destruct (H tsnet_energy) as [H' _]; [simpl; tauto | exact (Hlit H')].
Qed.

(** C8, amended: every script under [runs/] builds its job objects solely
    by passing configuration dictionaries to job constructors (in
    [tsnet-energy/experiment.py] the Pipeline is also passed a list of two
    jobs, each built by passing a dictionary), and performs exactly one
    top-level action, [run()] on the outermost job.  The dictionaries are
    literal except for their "name" entries, which two scripts compute from
    their own location, [Path(__file__).parent]; the other three scripts are
    literal throughout. *)
Theorem scripts_declarative :
  Forall (fun s =>
            runs_one_job s /\
            (forall file, exists j,
               s file = [Run j] /\ passes_dictionaries_and_jobs j = true) /\
            (forall file1 file2,
               map blank_action (s file1) = map blank_action (s file2)) /\
            (forall file1 file2,
               Path_parent file1 = Path_parent file2 -> s file1 = s file2))
         scripts /\
  Forall (fun s => forall file, exists j,
            s file = [Run j] /\ passes_only_dictionaries j = true)
         [ exp_classifier_0; cartesians_prediction_distance_matrix_output;
           exp_sn2_ts; exp_ts_2 ] /\
  (forall file, exists config regression cross_validate,
     tsnet_energy file
     = [Run (Call Pipeline [] [("exp_config", VDict config)]
               (Some [regression; cross_validate]))] /\
     passes_only_dictionaries regression = true /\
     passes_only_dictionaries cross_validate = true) /\
  literal exp_classifier_0 /\ literal exp_sn2_ts /\ literal exp_ts_2 /\
  ~ literal cartesians_prediction_distance_matrix_output /\
  ~ literal tsnet_energy.
Proof.
  split.
  - repeat constructor; try (intros file; eexists; reflexivity);
      try (intros file; eexists; split; reflexivity);
      try (intros file1 file2; reflexivity).
    + intros file1 file2 Hp.
      unfold cartesians_prediction_distance_matrix_output. now rewrite Hp.
    + intros file1 file2 Hp. unfold tsnet_energy. now rewrite Hp.
  - split; [repeat constructor; intros file; eexists; split; reflexivity|].
    split; [intros file; do 3 eexists; repeat split|].
    repeat split; try (intros file1 file2; reflexivity).
    + intros Hlit. specialize (Hlit "/a/experiment.py" "/b/experiment.py").
      discriminate Hlit.
    + intros Hlit. specialize (Hlit "/a/experiment.py" "/b/experiment.py").
      discriminate Hlit.
Qed.

End Runs.

(* ===================================================================== *)
(** * [tfn/tools/callbacks.py]: the hooks of ClassificationMetrics and the
      constructor of WriteCartesians *)
(* ===================================================================== *)

Module ClassificationMetricsCallback.

Import ClassificationMetrics.
Local Open Scope string_scope.

Section Callback.

(** The inputs of the model, [np.asarray(self.model.predict(inputs))],
    [np.mean(categorical_accuracy(target, prediction))] of Keras, and the
    text of a float in an f-string. *)
Variable inputs : Type.
Variable model_predict : inputs -> Numpy.ndarray.
Variable mean_categorical_accuracy :
  Numpy.ndarray -> Numpy.ndarray -> result Q.
Variable format : Q -> string.

Inductive event : Type :=
| SummaryScalar (name : string) (value : Q) (step : Z)
| Print (text : string).

(** The attribute [validation], a pair of inputs and targets. *)
Record ClassificationMetrics : Type :=
  mkClassificationMetrics { validation : inputs * Numpy.ndarray }.

(** The events of [on_epoch_end(epoch)] and how it ends. *)
Definition on_epoch_end (self : ClassificationMetrics) (epoch : Z)
  : list event * result unit :=
  let target := snd (validation self) in
  let prediction := model_predict (fst (validation self)) in
  match f1_score target prediction with
  | Raise e => ([], Raise e)
  | Ok f1score =>
  match precision target prediction with
  | Raise e => ([], Raise e)
  | Ok precision =>
  match recall target prediction with
  | Raise e => ([], Raise e)
  | Ok recall =>
  match mean_categorical_accuracy target prediction with
  | Raise e => ([], Raise e)
  | Ok accuracy =>
      ([ SummaryScalar "f1score" f1score epoch;
         SummaryScalar "precision" precision epoch;
         SummaryScalar "recall" recall epoch;
         SummaryScalar "accuracy" accuracy epoch;
         Print ("Metrics for epoch " ++ WriteCartesians.str_of_int epoch ++ ":"
                ++ " -- val_f1score: " ++ format f1score
                ++ " -- val_precision: " ++ format precision
                ++ " -- val_recall: " ++ format recall ++ " "
                ++ " -- val_accuracy: " ++ format accuracy) ],
       Ok tt)
  end end end end.

(** X17: [on_epoch_end] logs all four scalars or none.  When the product
    target * prediction is not defined it raises [ValueError] and logs
    nothing; when the product is defined and the accuracy of Keras raises,
    it raises that exception and logs nothing; when both are defined it
    returns after logging f1score, precision, recall and accuracy at step
    [epoch], in this order, with the values that [f1_score], [precision]
    and [recall] return, so that the logged f1score is
    2 * (precision * recall) / (precision + recall + 1e-7) of the logged
    precision and recall.  There is no other case. *)
Theorem on_epoch_end_all_or_nothing (self : ClassificationMetrics)
    (epoch : Z) :
  let target := snd (validation self) in
  let prediction := model_predict (fst (validation self)) in
  (Numpy.multiply target prediction = Raise ValueError ->
   on_epoch_end self epoch = ([], Raise ValueError)) /\
  (forall prod e,
     Numpy.multiply target prediction = Ok prod ->
     mean_categorical_accuracy target prediction = Raise e ->
     on_epoch_end self epoch = ([], Raise e)) /\
  (forall prod a,
     Numpy.multiply target prediction = Ok prod ->
     mean_categorical_accuracy target prediction = Ok a ->
     exists f p r text,
       on_epoch_end self epoch =
       ([ SummaryScalar "f1score" f epoch;
          SummaryScalar "precision" p epoch;
          SummaryScalar "recall" r epoch;
          SummaryScalar "accuracy" a epoch;
          Print text ], Ok tt) /\
       f1_score target prediction = Ok f /\
       precision target prediction = Ok p /\
       recall target prediction = Ok r /\
       (f == 2 * (p * r) / (p + r + (1 # 10000000)))%Q) /\
  ((exists prod, Numpy.multiply target prediction = Ok prod) \/
   Numpy.multiply target prediction = Raise ValueError) /\
  (fst (on_epoch_end self epoch) = [] \/
   (snd (on_epoch_end self epoch) = Ok tt /\
    List.length (fst (on_epoch_end self epoch)) = 5%nat)).
Proof.
  intros target prediction.
  assert (H1 : Numpy.multiply target prediction = Raise ValueError ->
               on_epoch_end self epoch = ([], Raise ValueError)).
  { intros Hm. unfold on_epoch_end. fold target prediction.
    assert (Hf : f1_score target prediction = Raise ValueError)
      by (unfold f1_score, recall; now rewrite Hm).
    now rewrite Hf. }
  assert (H2 : forall prod e,
             Numpy.multiply target prediction = Ok prod ->
             mean_categorical_accuracy target prediction = Raise e ->
             on_epoch_end self epoch = ([], Raise e)).
  { intros prod e Hm Ha. unfold on_epoch_end. fold target prediction.
    rewrite (f1_score_value _ _ _ Hm), (precision_value _ _ _ Hm),
      (recall_value _ _ _ Hm). cbv zeta. now rewrite Ha. }
  assert (H3 : forall prod a,
             Numpy.multiply target prediction = Ok prod ->
             mean_categorical_accuracy target prediction = Ok a ->
             exists f p r text,
               on_epoch_end self epoch =
               ([ SummaryScalar "f1score" f epoch;
                  SummaryScalar "precision" p epoch;
                  SummaryScalar "recall" r epoch;
                  SummaryScalar "accuracy" a epoch;
                  Print text ], Ok tt) /\
               f1_score target prediction = Ok f /\
               precision target prediction = Ok p /\
               recall target prediction = Ok r /\
               (f == 2 * (p * r) / (p + r + (1 # 10000000)))%Q).
  { intros prod a Hm Ha. unfold on_epoch_end. fold target prediction.
    rewrite (f1_score_value _ _ _ Hm), (precision_value _ _ _ Hm),
      (recall_value _ _ _ Hm). cbv zeta. rewrite Ha.
    pose proof (f1_denominator_pos prod target prediction) as H.
    set (r := (positives prod / (positives target + epsilon))%Q) in *.
    set (p := (positives prod / (positives prediction + epsilon))%Q) in *.
    exists (2 * ((p * r) / (p + r + epsilon)))%Q, p, r.
    eexists. split; [reflexivity|]. repeat (split; [reflexivity|]).
    fold epsilon. field. Lqa.lra. }
  split; [exact H1|]. split; [exact H2|]. split; [exact H3|].
  split; [apply result_multiply_cases|].
  destruct (result_multiply_cases target prediction) as [[prod Hm] | Hm].
  - destruct (mean_categorical_accuracy target prediction) as [a|e] eqn:Ea.
    + destruct (H3 prod a Hm eq_refl) as (f & p & r & text & -> & _).
      right. split; reflexivity.
    + rewrite (H2 prod e Hm eq_refl). left. reflexivity.
  - rewrite (H1 Hm). left. reflexivity.
Qed.

End Callback.

End ClassificationMetricsCallback.

Module WriteCartesiansInit.

Import WriteCartesians.
Local Open Scope string_scope.
Local Open Scope py_scope.

(** The objects [tensorboard_logdir] can be: [None], a string, or a
    [Path]. *)
Inductive object : Type :=
| ONone
| OStr (s : string)
| OPath (p : Path).

(** Truth value: [None] and the empty string are false, a [Path] is always
    true. *)
Definition truth (x : object) : bool :=
  match x with
  | ONone => false
  | OStr s => negb (String.eqb s "")
  | OPath _ => true
  end.

(** [p / name] of pathlib for a normalised [p] and a plain [name]: the
    paths "." and "/" take no separator. *)
Definition joinpath_normalised (p : Path) (name : string) : Path :=
  if String.eqb p "." then name
  else if String.eqb p "/" then "/" ++ name
       else p ++ "/" ++ name.

(** [x / name]: defined for a [Path] on the left; a string or [None] on the
    left has no such operator and the division raises [TypeError]. *)
Definition truediv (x : object) (name : string) : result object :=
  match x with
  | OPath p => Ok (OPath (joinpath_normalised p name))
  | OStr _ | ONone => Raise TypeError
  end.

(** [str(x)] *)
Definition str (x : object) : string :=
  match x with
  | ONone => "None"
  | OStr s => s
  | OPath p => p
  end.

Section Init.

Context {env : Environment}.

(** [__init__] for a normalised [path]: the callback, and the directory
    that [tf.summary.create_file_writer] is given.  In [x or y], [y] is
    evaluated only when [x] is false. *)
Definition init (path : Path) (validation test : option dataset)
    (max_structures write_rate : Z) (tensorboard_logdir : object)
  : result (WriteCartesians * string) :=
  let self :=
    {| WriteCartesians.path := path;
       WriteCartesians.validation := validation;
       WriteCartesians.test := test;
       WriteCartesians.max_structures := max_structures;
       WriteCartesians.write_rate := write_rate |} in
  logdir <- (if truth tensorboard_logdir then Ok tensorboard_logdir
             else truediv (OPath (Runs.Path_parent path)) "logs") ;;
  metrics <- truediv logdir "metrics" ;;
  Ok (self, str metrics).

(** X18: given [tensorboard_logdir] as a string that is not empty, the type
    its annotation names, the constructor raises [TypeError] whatever the
    other arguments are: the string is true, so [or] yields it, and it has
    no division by "metrics".  For [None] and the empty string the
    summaries go to logs/metrics beside [path], for a [Path] to metrics
    under it; these are the only arguments for which the callback is
    built. *)
Theorem init_tensorboard_logdir (path : Path) (validation test : option dataset)
    (max_structures write_rate : Z) (tensorboard_logdir : object) :
  (forall s, tensorboard_logdir = OStr s -> s <> "" ->
     init path validation test max_structures write_rate tensorboard_logdir
     = Raise TypeError) /\
  (tensorboard_logdir = ONone \/ tensorboard_logdir = OStr "" ->
   exists self,
     init path validation test max_structures write_rate tensorboard_logdir
     = Ok (self,
           joinpath_normalised
             (joinpath_normalised (Runs.Path_parent path) "logs") "metrics")) /\
  (forall p, tensorboard_logdir = OPath p ->
   exists self,
     init path validation test max_structures write_rate tensorboard_logdir
     = Ok (self, joinpath_normalised p "metrics")) /\
  (is_ok (init path validation test max_structures write_rate tensorboard_logdir)
   = match tensorboard_logdir with
     | OStr s => String.eqb s ""
     | _ => true
     end).
Proof.
  split; [|split; [|split]].
  - intros s -> Hs. unfold init. cbn [truth].
    apply String.eqb_neq in Hs. now rewrite Hs.
  - intros [-> | ->]; eexists; reflexivity.
  - intros p ->. eexists. reflexivity.
  - unfold init. destruct tensorboard_logdir as [|s|p]; try reflexivity.
    cbn [truth]. now destruct (String.eqb s "").
Qed.

End Init.

Example init_default_logdir :
  @init uninterpreted "runs/ts/cartesians" None None 5 100 ONone
  = Ok (@mkWriteCartesians uninterpreted "runs/ts/cartesians" None None 5 100,
        "runs/ts/logs/metrics") /\
  @init uninterpreted "runs/ts/cartesians" None None 5 100
    (OStr "runs/ts/logs")
  = Raise TypeError.
Proof. split; reflexivity. Qed.

End WriteCartesiansInit.
